(** * Film-Scan-Converter: the RawProcessing photo pipeline

    A shallow embedding of [RawProcessing.py] (class [RawProcessing]) and the
    properties of its processing pipeline.

    Conventions of the embedding:
    - a numpy buffer is an [ndarray]: its two leading dimensions and its
      rows; the third axis (the colour channels) is the element type, a
      [pixel], the list of the channel samples; a grey buffer or a mask has
      one sample per pixel, and a vector that is added to or multiplied
      into a buffer has one entry per channel;
    - samples and all other Python and numpy floats are real numbers ([R]):
      the rounding of float32 and float64 is not modelled, nor are NaN and
      the infinities; buffers are values, as the 16-bit buffers of the
      program are copied by every conversion to float;
    - Python integers are [Z], array dimensions are [nat];
    - OpenCV, numpy's statistics, matplotlib, PIL, rawpy and the file system
      are outside the repository: they are the fields of the interface
      [Extern], and the image operations of OpenCV may raise; [cv2.rotate]
      and the slices, flips and elementwise arithmetic of numpy are defined
      here;
    - a Python exception is the [Raise] result; methods that assign to
      [self] run in the state-and-exception monad [M], in which the
      assignments made before a raise are kept. *)

From Stdlib Require Import Ascii String List ZArith Reals Lra Lia Bool.
From Stdlib Require Import Permutation.
Import ListNotations.

Open Scope Z_scope.

(** ** Exceptions and results *)

Inductive exn : Type :=
| ZeroDivisionError
| ValueError
| TypeError
| AttributeError
| cv2_error
| OSError.

Inductive result (A : Type) : Type :=
| Ok (a : A)
| Raise (e : exn).

Arguments Ok {A} a.
Arguments Raise {A} e.

Definition rbind {A B} (r : result A) (k : A -> result B) : result B :=
  match r with
  | Ok a => k a
  | Raise e => Raise e
  end.

Declare Scope result_scope.
Delimit Scope result_scope with result.
Notation "x <- r ;; k" := (rbind r (fun x => k))
  (at level 61, r at next level, right associativity) : result_scope.
Notation "' p <- r ;; k" := (rbind r (fun p => k))
  (at level 61, p pattern, r at next level, right associativity) : result_scope.

(** ** numpy buffers *)

Module Np.

(** The value read at an index outside a buffer; no modelled operation
    reads there on a well-shaped buffer. *)
Class Fill (A : Type) : Type := fill : A.

#[export] Instance Fill_R : Fill R := 0%R.
#[export] Instance Fill_Z : Fill Z := 0.
#[export] Instance Fill_nat : Fill nat := 0%nat.
#[export] Instance Fill_bool : Fill bool := false.
#[export] Instance Fill_list {A} : Fill (list A) := [].

Record ndarray (A : Type) : Type := mk_ndarray {
  shape0 : nat;               (* img.shape[0]: rows *)
  shape1 : nat;               (* img.shape[1]: columns *)
  data : list (list A)
}.

Arguments mk_ndarray {A} shape0 shape1 data.
Arguments shape0 {A} n.
Arguments shape1 {A} n.
Arguments data {A} n.

Definition tabulate {A} (h w : nat) (f : nat -> nat -> A) : list (list A) :=
  map (fun i => map (fun j => f i j) (seq 0 w)) (seq 0 h).

Definition item {A} `{Fill A} (a : ndarray A) (i j : nat) : A :=
  nth j (nth i (data a) []) fill.

(** What numpy guarantees of every array: the rows agree with the shape. *)
Definition well_shaped {A} (a : ndarray A) : Prop :=
  length (data a) = shape0 a /\
  Forall (fun r => length r = shape1 a) (data a).

Definition build {A} (h w : nat) (f : nat -> nat -> A) : ndarray A :=
  mk_ndarray h w (tabulate h w f).

(** [img[:, ::-1]] *)
Definition flip_columns {A} `{Fill A} (a : ndarray A) : ndarray A :=
  build (shape0 a) (shape1 a) (fun i j => item a i (shape1 a - 1 - j)).

(** [cv2.rotate(img, cv2.ROTATE_90_CLOCKWISE)]:
    [dst[i][j] = src[rows - 1 - j][i]] *)
Definition rotate_90_clockwise {A} `{Fill A} (a : ndarray A) : ndarray A :=
  build (shape1 a) (shape0 a) (fun i j => item a (shape0 a - 1 - j) i).

(** [cv2.rotate(img, cv2.ROTATE_90_COUNTERCLOCKWISE)]:
    [dst[i][j] = src[j][cols - 1 - i]] *)
Definition rotate_90_counterclockwise {A} `{Fill A} (a : ndarray A)
  : ndarray A :=
  build (shape1 a) (shape0 a) (fun i j => item a j (shape1 a - 1 - i)).

(** [cv2.rotate(img, cv2.ROTATE_180)] *)
Definition rotate_180 {A} `{Fill A} (a : ndarray A) : ndarray A :=
  build (shape0 a) (shape1 a)
    (fun i j => item a (shape0 a - 1 - i) (shape1 a - 1 - j)).

(** Elementwise operations and broadcasting over the channel axis. *)
Definition map_items {A B} (f : A -> B) (a : ndarray A) : ndarray B :=
  mk_ndarray (shape0 a) (shape1 a) (map (map f) (data a)).

Fixpoint zip_with {A B C} (f : A -> B -> C) (xs : list A) (ys : list B)
  : list C :=
  match xs, ys with
  | x :: xs', y :: ys' => f x y :: zip_with f xs' ys'
  | _, _ => []
  end.

(** All the items of a buffer, row after row. *)
Definition ravel {A} (a : ndarray A) : list A := concat (data a).

End Np.

Export Np.

(** ** Python numbers *)

Open Scope R_scope.

(** [int(x)]: truncation towards zero. *)
Definition py_int (x : R) : Z :=
  if Rle_dec 0 x then Int_part x else (- Int_part (- x))%Z.

(** [round(x)]: to the nearest integer, a half to the even one. *)
Definition py_round (x : R) : Z :=
  let f := Int_part x in
  let d := x - IZR f in
  if Rlt_dec d (1 / 2) then f
  else if Rlt_dec (1 / 2) d then (f + 1)%Z
  else if Z.even f then f else (f + 1)%Z.

(** [a / b] on Python floats and ints. *)
Definition py_truediv (a b : R) : result R :=
  if Req_dec_T b 0 then Raise ZeroDivisionError else Ok (a / b).

(** [np.clip(v, lo, hi)], also [ndarray.clip]. *)
Definition np_clip (v lo hi : R) : R := Rmin hi (Rmax lo v).

(** [np.power] on a non-negative base: [0 ** y] is 1 at [y = 0] and 0 at
    [y > 0].  The bases of this program are normalised samples, in [0, 1],
    and its exponents are powers of two, hence positive. *)
Definition np_power (x y : R) : R :=
  if Req_dec_T x 0 then (if Req_dec_T y 0 then 1 else 0) else Rpower x y.

(** [2 ** t] *)
Definition pow2 (t : R) : R := Rpower 2 t.

(** Conversion to [np.uint16] and the wrap-around of its arithmetic. *)
Definition to_uint16 (z : Z) : Z := (z mod 65536)%Z.

(** Conversion to [np.int32]. *)
Definition to_int32 (z : Z) : Z :=
  ((z + 2147483648) mod 4294967296 - 2147483648)%Z.

(** ** Data model *)

(** The samples of one pixel along the channel axis (B, G, R for a colour
    buffer, one sample for a grey buffer or a mask). *)
Definition pixel : Type := list R.
Definition image : Type := ndarray pixel.

(** A contour of [cv2.findContours]: its points. *)
Definition contour : Type := list (Z * Z).

(** The rotated rectangle of [cv2.minAreaRect], a Python tuple
    [((cx, cy), (w, h), angle)]: [rect0] is [rect[0]], and so on. *)
Record RotatedRect : Type := mk_rect {
  rect0 : R * R;
  rect1 : R * R;
  rect2 : R
}.

(** The four corner points [[x, y]] of a box ([cv2.boxPoints]). *)
Definition box_points : Type := list (Z * Z).

(** [piexif]'s dictionary: [(ifd, tag) -> value]. *)
Definition exif_dict : Type := list ((string * string) * string).

(** [RawProcessing.class_parameters], the settings shared by all photos
    (the entries the modelled methods read). *)
Record class_parameters : Type := {
  max_proxy_size : Z;
  frame : R;
  jpg_quality : Z;
  tiff_compression : Z;
  black_point_percentile : R;
  white_point_percentile : R;
  ignore_border : R * R;
  ignore_neg_border : bool;
  dust_threshold : R;
  max_dust_area : R;
  dust_iter : Z;
  picker_radius : R;
  filetype : string;
  fit_aspect_ratio : string
}.

(** [RawProcessing.exif_parameters] *)
Record exif_parameters : Type := {
  camera_make : string;
  camera_model : string;
  lens_make : string;
  lens_model : string;
  date_time_original : string
}.

(** The attributes named by [RawProcessing.processing_parameters]. *)
Record processing_parameters : Type := {
  dark_threshold : R;
  light_threshold : R;
  border_crop : R;
  flip : bool;
  rotation : Z;
  film_type : Z;
  white_point : R;
  black_point : R;
  gamma : R;
  shadows : R;
  highlights : R;
  temp : R;
  tint : R;
  sat : R;
  reject : bool;
  base_detect : bool;
  base_rgb : list Z;
  remove_dust : bool
}.

(** The photo object, [self].  An attribute that [__init__] does not set is
    an [option]: [None] while the object has no such attribute ([hasattr] is
    false).  [RAW_IMG], [rect] and [largest_contour] may also hold Python's
    [None], the inner [option]. *)
Record photo : Type := {
  params : processing_parameters;
  processed : bool;
  proxy : bool;
  FileReadError : bool;
  active_processes : Z;
  pick_wb : bool;
  file_directory : string;
  filename : string;
  config_path : string;
  colour_desc : option string;
  exif_data : exif_dict;
  RAW_IMG : option (option image);
  proxy_RAW_IMG : option image;
  thresh : option image;
  rect : option (option RotatedRect);
  largest_contour : option (option contour);
  IMG : option image;
  dust_mask : option image;
  wb_picker_params : option (R * R * R);
  memory_alloc : option Z
}.

(** Assignment to one attribute of [self]. *)

Definition set_params (v : processing_parameters) (self : photo) : photo :=
  let 'Build_photo _ x1 x2 x3 x4 x5 x6 x7 x8 x9 x10 x11 x12 x13 x14 x15 x16
    x17 x18 x19 := self in
  Build_photo v x1 x2 x3 x4 x5 x6 x7 x8 x9 x10 x11 x12 x13 x14 x15 x16 x17
    x18 x19.

Definition set_processed (v : bool) (self : photo) : photo :=
  let 'Build_photo x0 _ x2 x3 x4 x5 x6 x7 x8 x9 x10 x11 x12 x13 x14 x15 x16
    x17 x18 x19 := self in
  Build_photo x0 v x2 x3 x4 x5 x6 x7 x8 x9 x10 x11 x12 x13 x14 x15 x16 x17
    x18 x19.

Definition set_proxy (v : bool) (self : photo) : photo :=
  let 'Build_photo x0 x1 _ x3 x4 x5 x6 x7 x8 x9 x10 x11 x12 x13 x14 x15 x16
    x17 x18 x19 := self in
  Build_photo x0 x1 v x3 x4 x5 x6 x7 x8 x9 x10 x11 x12 x13 x14 x15 x16 x17
    x18 x19.

Definition set_FileReadError (v : bool) (self : photo) : photo :=
  let 'Build_photo x0 x1 x2 _ x4 x5 x6 x7 x8 x9 x10 x11 x12 x13 x14 x15 x16
    x17 x18 x19 := self in
  Build_photo x0 x1 x2 v x4 x5 x6 x7 x8 x9 x10 x11 x12 x13 x14 x15 x16 x17
    x18 x19.

Definition set_active_processes (v : Z) (self : photo) : photo :=
  let 'Build_photo x0 x1 x2 x3 _ x5 x6 x7 x8 x9 x10 x11 x12 x13 x14 x15 x16
    x17 x18 x19 := self in
  Build_photo x0 x1 x2 x3 v x5 x6 x7 x8 x9 x10 x11 x12 x13 x14 x15 x16 x17
    x18 x19.

Definition set_pick_wb (v : bool) (self : photo) : photo :=
  let 'Build_photo x0 x1 x2 x3 x4 _ x6 x7 x8 x9 x10 x11 x12 x13 x14 x15 x16
    x17 x18 x19 := self in
  Build_photo x0 x1 x2 x3 x4 v x6 x7 x8 x9 x10 x11 x12 x13 x14 x15 x16 x17
    x18 x19.

Definition set_colour_desc (v : option string) (self : photo) : photo :=
  let 'Build_photo x0 x1 x2 x3 x4 x5 x6 x7 x8 _ x10 x11 x12 x13 x14 x15 x16
    x17 x18 x19 := self in
  Build_photo x0 x1 x2 x3 x4 x5 x6 x7 x8 v x10 x11 x12 x13 x14 x15 x16 x17
    x18 x19.

Definition set_exif_data (v : exif_dict) (self : photo) : photo :=
  let 'Build_photo x0 x1 x2 x3 x4 x5 x6 x7 x8 x9 _ x11 x12 x13 x14 x15 x16
    x17 x18 x19 := self in
  Build_photo x0 x1 x2 x3 x4 x5 x6 x7 x8 x9 v x11 x12 x13 x14 x15 x16 x17
    x18 x19.

Definition set_RAW_IMG (v : option (option image)) (self : photo) : photo :=
  let 'Build_photo x0 x1 x2 x3 x4 x5 x6 x7 x8 x9 x10 _ x12 x13 x14 x15 x16
    x17 x18 x19 := self in
  Build_photo x0 x1 x2 x3 x4 x5 x6 x7 x8 x9 x10 v x12 x13 x14 x15 x16 x17
    x18 x19.

Definition set_proxy_RAW_IMG (v : option image) (self : photo) : photo :=
  let 'Build_photo x0 x1 x2 x3 x4 x5 x6 x7 x8 x9 x10 x11 _ x13 x14 x15 x16
    x17 x18 x19 := self in
  Build_photo x0 x1 x2 x3 x4 x5 x6 x7 x8 x9 x10 x11 v x13 x14 x15 x16 x17
    x18 x19.

Definition set_thresh (v : option image) (self : photo) : photo :=
  let 'Build_photo x0 x1 x2 x3 x4 x5 x6 x7 x8 x9 x10 x11 x12 _ x14 x15 x16
    x17 x18 x19 := self in
  Build_photo x0 x1 x2 x3 x4 x5 x6 x7 x8 x9 x10 x11 x12 v x14 x15 x16 x17
    x18 x19.

Definition set_rect (v : option (option RotatedRect)) (self : photo)
  : photo :=
  let 'Build_photo x0 x1 x2 x3 x4 x5 x6 x7 x8 x9 x10 x11 x12 x13 _ x15 x16
    x17 x18 x19 := self in
  Build_photo x0 x1 x2 x3 x4 x5 x6 x7 x8 x9 x10 x11 x12 x13 v x15 x16 x17
    x18 x19.

Definition set_largest_contour (v : option (option contour)) (self : photo)
  : photo :=
  let 'Build_photo x0 x1 x2 x3 x4 x5 x6 x7 x8 x9 x10 x11 x12 x13 x14 _ x16
    x17 x18 x19 := self in
  Build_photo x0 x1 x2 x3 x4 x5 x6 x7 x8 x9 x10 x11 x12 x13 x14 v x16 x17
    x18 x19.

Definition set_IMG (v : option image) (self : photo) : photo :=
  let 'Build_photo x0 x1 x2 x3 x4 x5 x6 x7 x8 x9 x10 x11 x12 x13 x14 x15 _
    x17 x18 x19 := self in
  Build_photo x0 x1 x2 x3 x4 x5 x6 x7 x8 x9 x10 x11 x12 x13 x14 x15 v x17
    x18 x19.

Definition set_dust_mask (v : option image) (self : photo) : photo :=
  let 'Build_photo x0 x1 x2 x3 x4 x5 x6 x7 x8 x9 x10 x11 x12 x13 x14 x15 x16
    _ x18 x19 := self in
  Build_photo x0 x1 x2 x3 x4 x5 x6 x7 x8 x9 x10 x11 x12 x13 x14 x15 x16 v
    x18 x19.

Definition set_wb_picker_params (v : option (R * R * R)) (self : photo)
  : photo :=
  let 'Build_photo x0 x1 x2 x3 x4 x5 x6 x7 x8 x9 x10 x11 x12 x13 x14 x15 x16
    x17 _ x19 := self in
  Build_photo x0 x1 x2 x3 x4 x5 x6 x7 x8 x9 x10 x11 x12 x13 x14 x15 x16 x17
    v x19.

Definition set_memory_alloc (v : option Z) (self : photo) : photo :=
  let 'Build_photo x0 x1 x2 x3 x4 x5 x6 x7 x8 x9 x10 x11 x12 x13 x14 x15 x16
    x17 x18 _ := self in
  Build_photo x0 x1 x2 x3 x4 x5 x6 x7 x8 x9 x10 x11 x12 x13 x14 x15 x16 x17
    x18 v.

Definition with_temp (v : R) (p : processing_parameters)
  : processing_parameters :=
  let 'Build_processing_parameters x0 x1 x2 x3 x4 x5 x6 x7 x8 x9 x10 _ x12
    x13 x14 x15 x16 x17 := p in
  Build_processing_parameters x0 x1 x2 x3 x4 x5 x6 x7 x8 x9 x10 v x12 x13
    x14 x15 x16 x17.

Definition with_tint (v : R) (p : processing_parameters)
  : processing_parameters :=
  let 'Build_processing_parameters x0 x1 x2 x3 x4 x5 x6 x7 x8 x9 x10 x11 _
    x13 x14 x15 x16 x17 := p in
  Build_processing_parameters x0 x1 x2 x3 x4 x5 x6 x7 x8 x9 x10 x11 v x13
    x14 x15 x16 x17.

Definition with_reject (v : bool) (p : processing_parameters)
  : processing_parameters :=
  let 'Build_processing_parameters x0 x1 x2 x3 x4 x5 x6 x7 x8 x9 x10 x11 x12
    x13 _ x15 x16 x17 := p in
  Build_processing_parameters x0 x1 x2 x3 x4 x5 x6 x7 x8 x9 x10 x11 x12 x13
    v x15 x16 x17.

Definition with_base_rgb (v : list Z) (p : processing_parameters)
  : processing_parameters :=
  let 'Build_processing_parameters x0 x1 x2 x3 x4 x5 x6 x7 x8 x9 x10 x11 x12
    x13 x14 x15 _ x17 := p in
  Build_processing_parameters x0 x1 x2 x3 x4 x5 x6 x7 x8 x9 x10 x11 x12 x13
    x14 x15 v x17.

(** ** The libraries the class calls *)

Inductive colour_conversion : Type :=
| COLOR_BGR2GRAY
| COLOR_RGB2GRAY
| COLOR_GRAY2BGR
| COLOR_BGR2RGB
| COLOR_RGB2BGR.

Inductive threshold_type : Type :=
| THRESH_BINARY        (* 0 *)
| THRESH_BINARY_INV.   (* 1 *)

Inductive retrieval_mode : Type :=
| RETR_EXTERNAL        (* 0 *)
| RETR_LIST.           (* 1 *)

(** What reading the photo's file yields in [load]. *)
Inductive read_outcome : Type :=
| rawpy_decoded (raw : image) (color_desc : string)
    (* rawpy.imread and postprocess succeeded *)
| imread_array (img : image) (is_uint8 : bool)
    (* rawpy raised, cv2.imread returned an array *)
| imread_none
    (* rawpy raised, cv2.imread returned None *)
| imread_raised.
    (* rawpy raised, and so did cv2.imread *)

(** OpenCV, numpy's statistics, matplotlib's colour conversions and the file
    reader.  A structuring element [np.ones((k, k), np.uint8)] is given by
    [k]; contours are always found with [cv2.CHAIN_APPROX_SIMPLE]. *)
Class Extern : Type := {
  read_file : string -> bool -> read_outcome;
  cv2_convertScaleAbs : image -> R -> result image;
  cv2_cvtColor : image -> colour_conversion -> result image;
  cv2_threshold : image -> R -> R -> threshold_type -> result image;
  cv2_bitwise_and : image -> image -> result image;
  cv2_erode : image -> Z -> Z -> result image;
  cv2_dilate : image -> Z -> Z -> result image;
  cv2_findContours : image -> retrieval_mode -> result (list contour);
  cv2_contourArea : contour -> R;
  cv2_minAreaRect : contour -> RotatedRect;
  cv2_boundingRect : contour -> Z * Z * Z * Z;
  cv2_boxPoints : RotatedRect -> list (R * R);
  cv2_getPerspectiveTransform :
    list (R * R) -> list (R * R) -> result (list (list R));
  cv2_warpPerspective : image -> list (list R) -> Z * Z -> result image;
  cv2_resize : image -> Z * Z -> result image;
  cv2_drawContours_filled : image -> list contour -> R -> result image;
  cv2_inpaint : image -> image -> result image;
  cv2_circle_filled : image -> Z * Z -> Z -> R -> result image;
  cv2_mean : image -> image -> result (R * R * R * R);
  np_percentile : list R -> R -> R;
  np_nbytes : image -> Z;
  np_is_uint16 : image -> bool;
  rgb_to_hsv : pixel -> pixel;
  hsv_to_rgb : pixel -> pixel;
  (* the drawing of get_IMG's 'Contours' and 'Histogram' outputs *)
  threshold_overlay : image -> image -> result image;
  crop_boxes_overlay :
    image -> box_points -> box_points -> box_points -> option contour ->
    result image;
  histogram_plot : class_parameters -> image -> result image;
  (* the framing arithmetic of add_frame *)
  framed : class_parameters -> image -> result image
}.

(** ** The state-and-exception monad of the methods that assign to [self] *)

Definition M (A : Type) : Type := photo -> result A * photo.

Definition mret {A} (a : A) : M A := fun self => (Ok a, self).

Definition mbind {A B} (m : M A) (k : A -> M B) : M B :=
  fun self =>
    match m self with
    | (Ok a, self') => k a self'
    | (Raise e, self') => (Raise e, self')
    end.

(** An expression that reads [self] and may raise. *)
Definition eval {A} (f : photo -> result A) : M A :=
  fun self => (f self, self).

(** An assignment [self.attr = v]. *)
Definition assign (f : photo -> photo) : M unit :=
  fun self => (Ok tt, f self).

Declare Scope photo_scope.
Delimit Scope photo_scope with M.
Notation "x <-- m ;; k" := (mbind m (fun x => k))
  (at level 61, m at next level, right associativity) : photo_scope.
Notation "' p <-- m ;; k" := (mbind m (fun p => k))
  (at level 61, p pattern, m at next level, right associativity) : photo_scope.
Notation "m ;;; k" := (mbind m (fun _ => k))
  (at level 61, right associativity) : photo_scope.

(** Reading an attribute that may be missing, or hold [None]. *)
Definition getattr {A} (a : option A) : result A :=
  match a with
  | Some v => Ok v
  | None => Raise AttributeError
  end.

(** [self.RAW_IMG] used as an array; [on_None] is what the use raises when
    the attribute holds [None]. *)
Definition RAW_IMG_array (on_None : exn) (self : photo) : result image :=
  match RAW_IMG self with
  | Some (Some img) => Ok img
  | Some None => Raise on_None
  | None => Raise AttributeError
  end.

Definition hasattr {A} (a : option A) : bool :=
  match a with
  | Some _ => true
  | None => false
  end.

(** ** numpy and Python helpers *)

(** A Python slice [l[lo:hi]]. *)
Definition slice_index (i n : Z) : Z :=
  if (i <? 0)%Z then Z.max 0 (i + n) else Z.min i n.

Definition py_slice {A} (lo hi : Z) (l : list A) : list A :=
  let n := Z.of_nat (length l) in
  let a := slice_index lo n in
  let b := slice_index hi n in
  firstn (Z.to_nat (b - a)) (skipn (Z.to_nat a) l).

(** [a[r0:r1, c0:c1]] *)
Definition np_slice {A} (r0 r1 c0 c1 : Z) (a : ndarray A) : ndarray A :=
  let w := Z.of_nat (shape1 a) in
  let rows := map (py_slice c0 c1) (py_slice r0 r1 (data a)) in
  mk_ndarray (length rows)
    (Z.to_nat (slice_index c1 w - slice_index c0 w)) rows.

(** The number of channels, and the samples of each channel: the planes
    over which [np.percentile(img, q, (0, 1))] works. *)
Definition channels (img : image) : nat := length (hd [] (ravel img)).

Definition channel_planes (img : image) : list (list R) :=
  map (fun c => map (fun px => nth c px 0) (ravel img))
      (seq 0 (channels img)).

Definition percentile_axes01 `{Extern} (img : image) (q : R) : list R :=
  map (fun plane => np_percentile plane q) (channel_planes img).

(** [img + v], [img * v], ... with a vector [v] of one entry per channel. *)
Definition broadcast (f : R -> R -> R) (img : image) (v : list R) : image :=
  map_items (fun px => zip_with f px v) img.

(** [f(img)] for an elementwise [f]. *)
Definition elementwise (f : R -> R) (img : image) : image :=
  map_items (map f) img.

(** [np.zeros_like(img[:, :, 0], dtype=np.uint8)] *)
Definition zeros_plane (img : image) : image :=
  map_items (fun _ => [0]) img.

(** [sorted(l, key=key)]: a stable insertion sort. *)
Fixpoint insert_by {A} (key : A -> R) (x : A) (l : list A) : list A :=
  match l with
  | [] => [x]
  | y :: l' =>
      if Rlt_dec (key x) (key y) then x :: y :: l'
      else y :: insert_by key x l'
  end.

Definition sorted_by {A} (key : A -> R) (l : list A) : list A :=
  fold_left (fun acc x => insert_by key x acc) l [].

(** [max(l, key=key)]: the first item of greatest key; [ValueError] on an
    empty list. *)
Definition py_max_by {A} (key : A -> R) (l : list A) : result A :=
  match l with
  | [] => Raise ValueError
  | x :: l' =>
      Ok (fold_left (fun m y => if Rlt_dec (key m) (key y) then y else m) l' x)
  end.

(** ** The methods of [RawProcessing] *)

Section Methods.

Context {E : Extern}.
Variable cp : class_parameters.
Variable xp : exif_parameters.

Local Open Scope result_scope.

(** [rotate(self, img, undo=False)]: applies flip and rotation to image. *)
Definition rotate {A} `{Fill A} (self : photo) (img : ndarray A) (undo : bool)
  : ndarray A :=
  let rotation := (rotation (params self) mod 4)%Z in
  if undo then
    let img := if flip (params self) then flip_columns img else img in
    match rotation with
    | 0%Z => img
    | 1%Z => rotate_90_counterclockwise img
    | 2%Z => rotate_180 img
    | 3%Z => rotate_90_clockwise img
    | _ => img
    end
  else
    let img :=
      match rotation with
      | 0%Z => img
      | 1%Z => rotate_90_clockwise img
      | 2%Z => rotate_180 img
      | 3%Z => rotate_90_counterclockwise img
      | _ => img
      end in
    if flip (params self) then flip_columns img else img.

(** Ascending insertion sort of a column, for [np.sort(box, 0)]. *)
Fixpoint insert_Z (x : Z) (l : list Z) : list Z :=
  match l with
  | [] => [x]
  | y :: l' => if (x <=? y)%Z then x :: y :: l' else y :: insert_Z x l'
  end.

Definition sort_Z (l : list Z) : list Z := fold_right insert_Z [] l.

(** [min(box, key=sum)]: the first corner of least [x + y]. *)
Definition topleft_of (b : box_points) : Z * Z :=
  match b with
  | [] => (0, 0)%Z
  | p :: b' =>
      fold_left
        (fun m q => if (fst q + snd q <? fst m + snd m)%Z then q else m) b' p
  end.

(** [np.where(box == topleft)[0][0]]: the first row that agrees with
    [topleft] in a coordinate. *)
Fixpoint first_match (topleft : Z * Z) (b : box_points) : nat :=
  match b with
  | [] => 0
  | p :: b' =>
      if (fst p =? fst topleft)%Z || (snd p =? snd topleft)%Z then 0%nat
      else S (first_match topleft b')
  end.

(** [np.roll(l, -k, axis=0)] for [0 <= k <= len(l)]. *)
Definition roll_back {A} (k : nat) (l : list A) : list A :=
  skipn k l ++ firstn k l.

(** [np.roll(l, k, axis=0)] for [0 <= k <= len(l)]. *)
Definition roll {A} (k : nat) (l : list A) : list A :=
  roll_back (length l - k) l.

(** [l[k]] in a column and [box[k]] in a box of four corners. *)
Definition entry (l : list Z) (k : nat) : Z := nth k l 0%Z.
Definition corner (b : box_points) (k : nat) : Z * Z := nth k b (0, 0)%Z.

(** The loop [for point in offset] of [shrink_box], on one row. *)
Definition skew_point (x_offset y_offset skew : R) (point : Z * Z) : Z * Z :=
  let p1 :=
    if (0 <? fst point)%Z then (snd point - py_int (x_offset * skew))%Z
    else (snd point + py_int (x_offset * skew))%Z in
  let p0 :=
    if (p1 <? 0)%Z then (fst point - py_int (y_offset * skew))%Z
    else (fst point + py_int (y_offset * skew))%Z in
  (p0, p1).

(** [shrink_box(box, x, y)]: given box with 4 corner coordinates, returns new
    box coordinates shrunken by x and y percentages.  With [w = 0] the skew
    is infinite or undefined and [int(x_offset * skew)] raises. *)
Definition shrink_box (box : box_points) (x y : R)
  : result box_points :=
  let sorted0 := sort_Z (map fst box) in
  let sorted1 := sort_Z (map snd box) in
  let topleft := topleft_of box in
  let index := first_match topleft box in
  let ordered := roll_back index box in
  let h := IZR (entry sorted1 2 + entry sorted1 3
                - entry sorted1 0 - entry sorted1 1) / 2 in
  let w := IZR (entry sorted0 2 + entry sorted0 3
                - entry sorted0 0 - entry sorted0 1) / 2 in
  if Req_dec_T w 0 then Raise ValueError else
  let skew :=
    IZR (fst (corner ordered 3) - fst (corner ordered 0)) / w * 1.5 in
  let n := INR (length ordered) in
  let centre0 := IZR (fold_right Z.add 0%Z (map fst ordered)) / n in
  let centre1 := IZR (fold_right Z.add 0%Z (map snd ordered)) / n in
  let y_offset := y / 100 * h in
  let x_offset := x / 100 * w in
  let offset :=
    map (fun p : Z * Z =>
           let o1 :=
             if Rlt_dec (IZR (snd p)) centre1 then py_int y_offset
             else if Rlt_dec centre1 (IZR (snd p)) then (- py_int y_offset)%Z
             else 0%Z in
           let o0 :=
             if Rlt_dec (IZR (fst p)) centre0 then py_int x_offset
             else if Rlt_dec centre0 (IZR (fst p)) then (- py_int x_offset)%Z
             else 0%Z in
           skew_point x_offset y_offset skew (o0, o1))
        ordered in
  let new_box :=
    zip_with (fun p o => (fst p + fst o, snd p + snd o)%Z) ordered offset in
  let new_box := roll index new_box in
  Ok (map (fun p => (to_int32 (fst p), to_int32 (snd p))) new_box).

(** [get_threshold(self, img)]: generates the threshold image used to find
    contours. *)
Definition get_threshold (self : photo) (img : image) : result image :=
  img <- cv2_convertScaleAbs img (255 / 65535) ;;
  imgray <- cv2_cvtColor img COLOR_BGR2GRAY ;;
  let dark_threshold := py_int (dark_threshold (params self) / 100 * 255) in
  dark_thresh_img <-
    cv2_threshold imgray (IZR dark_threshold) 255 THRESH_BINARY ;;
  let light_threshold := py_int (light_threshold (params self) / 100 * 255) in
  light_thresh_img <-
    cv2_threshold imgray (IZR light_threshold) 255 THRESH_BINARY_INV ;;
  thresh_img <- cv2_bitwise_and dark_thresh_img light_thresh_img ;;
  cv2_erode thresh_img 7 2.

(** Lines 396-397 of [find_optimal_crop]: the correction for a rectangle
    rotation that is not positive. *)
Definition correct_rotation (rect : RotatedRect) : RotatedRect :=
  if Rle_dec (rect2 rect) 0 then
    mk_rect (fst (rect0 rect), snd (rect0 rect))
            (snd (rect1 rect), fst (rect1 rect))
            (rect2 rect + 90)
  else rect.

(** Line 398 of [find_optimal_crop]: normalizes crop for different sized
    images. *)
Definition normalize_rect (rect : RotatedRect) (y x : nat)
  : result RotatedRect :=
  c0 <- py_truediv (fst (rect0 rect)) (INR y) ;;
  c1 <- py_truediv (snd (rect0 rect)) (INR x) ;;
  s0 <- py_truediv (fst (rect1 rect)) (INR y) ;;
  s1 <- py_truediv (snd (rect1 rect)) (INR x) ;;
  Ok (mk_rect (c0, c1) (s0, s1) (rect2 rect)).

(** [find_optimal_crop(self)]: determines the optimal crop around an image
    and corrects for misalignment/rotation.  Returns
    [(thresh, rect, largest_contour)]. *)
Definition find_optimal_crop (self : photo)
  : result (image * option RotatedRect * option contour) :=
  raw <- RAW_IMG_array cv2_error self ;;
  thresh <- get_threshold self raw ;;
  contours <- cv2_findContours thresh RETR_LIST ;;
  if (length contours =? 0)%nat then Ok (thresh, None, None) else
  largest_contour <- py_max_by cv2_contourArea contours ;;
  let rect := cv2_minAreaRect largest_contour in
  let y := shape0 raw in
  let x := shape1 raw in
  let rect := correct_rotation rect in
  rect <- normalize_rect rect y x ;;
  Ok (thresh, Some rect, Some largest_contour).

(** [crop(self, img, rect, include_EQ_ignore=False)] *)
Definition crop (self : photo) (img : image) (rect : option RotatedRect)
  (include_EQ_ignore : bool) : result image :=
  match rect with
  | None => Ok img
  | Some rect =>
      let border_crop := border_crop (params self) in
      '(x_crop, y_crop) <-
        (if (shape1 img <? shape0 img)%nat then
           y_crop <- py_truediv (border_crop * INR (shape1 img))
                                (INR (shape0 img)) ;;
           Ok (border_crop, y_crop)
         else
           x_crop <- py_truediv (border_crop * INR (shape0 img))
                                (INR (shape1 img)) ;;
           Ok (x_crop, border_crop)) ;;
      let y := INR (shape0 img) in
      let x := INR (shape1 img) in
      (* convert normalized crop to corresponding pixel coordinates *)
      let rect :=
        mk_rect (fst (rect0 rect) * y, snd (rect0 rect) * x)
                (fst (rect1 rect) * y, snd (rect1 rect) * x)
                (rect2 rect) in
      let box := cv2_boxPoints rect in
      let box := map (fun p => (py_int (fst p), py_int (snd p))) box in
      box <-
        (if negb (include_EQ_ignore && ignore_neg_border cp)
         then shrink_box box x_crop y_crop else Ok box) ;;
      box <-
        (if include_EQ_ignore
         then shrink_box box (fst (ignore_border cp)) (snd (ignore_border cp))
         else Ok box) ;;
      let width := py_int (snd (rect1 rect) * (1 - x_crop / 100)) in
      let height := py_int (fst (rect1 rect) * (1 - y_crop / 100)) in
      let src_pts := map (fun p => (IZR (fst p), IZR (snd p))) box in
      let dst_pts :=
        [ (0, IZR (width - 1));
          (0, 0);
          (IZR (height - 1), 0);
          (IZR (height - 1), IZR (width - 1)) ] in
      M <- cv2_getPerspectiveTransform src_pts dst_pts ;;
      img <- cv2_warpPerspective img M (height, width) ;;
      if Rlt_dec 45 (rect2 rect)
      then Ok (rotate_90_clockwise img)  (* rotates image back *)
      else Ok img
  end.

(** The samples of a grey buffer, for a percentile over all of it. *)
Definition samples (img : image) : list R := concat (ravel img).

(** Lines 346-349 of [find_dust]: the greatest area of a dust particle, for
    a buffer of [y] rows and [x] columns. *)
Definition max_dust_size_of (y x : nat) : R :=
  let img_size := (INR x + INR y) / 2 in
  let multiplier := img_size / 800 in
  multiplier ^ 2 * max_dust_area cp.

(** Lines 367-368 of [find_dust]: the contours kept as dust. *)
Definition smallest_of (max_dust_size : R) (contours : list contour)
  : list contour :=
  let contours := sorted_by cv2_contourArea contours in
  filter (fun contour =>
            if Rlt_dec (cv2_contourArea contour) max_dust_size
            then true else false)
         contours.

(** The contours found in the threshold image of [find_dust], after its
    dilation and erosion (lines 350-366). *)
Definition dust_contours (img : image) : result (image * Z * list contour) :=
  let y := shape0 img in
  let x := shape1 img in
  let img_size := (INR x + INR y) / 2 in
  let multiplier := img_size / 800 in
  let kernel_size := Z.max (py_round multiplier * 2 + 1) 1 in
  (* the width of the border to ignore in pixels *)
  let x := py_int (fst (ignore_border cp) / 100 * INR (shape1 img)) in
  let y := py_int (snd (ignore_border cp) / 100 * INR (shape0 img)) in
  img8 <- cv2_convertScaleAbs img (255 / 65535) ;;
  imgray <- cv2_cvtColor img8 COLOR_BGR2GRAY ;;
  let sample :=
    if (x * y =? 0)%Z then imgray
    else np_slice y (- y) x (- x) imgray in
  let minimum := np_percentile (samples sample) 0.5 in
  let maximum := np_percentile (samples sample) 99.5 in
  let threshold :=
    (maximum - minimum) * dust_threshold cp / 100 + minimum in
  thresh <- cv2_threshold imgray threshold 255 THRESH_BINARY_INV ;;
  thresh_img <- cv2_dilate thresh kernel_size (dust_iter cp) ;;
  thresh_img <- cv2_erode thresh_img kernel_size (dust_iter cp) ;;
  contours <- cv2_findContours thresh_img RETR_LIST ;;
  Ok (imgray, kernel_size, contours).

(** [find_dust(self, img)]: tries to detect dust particles of a maximum
    size, then returns threshold image of just dust. *)
Definition find_dust (self : photo) (img : image) : result image :=
  let max_dust_size := max_dust_size_of (shape0 img) (shape1 img) in
  '(imgray, kernel_size, contours) <- dust_contours img ;;
  let smallest := smallest_of max_dust_size contours in
  let dust_mask := elementwise (fun _ => 0) imgray in
  dust_mask <- cv2_drawContours_filled dust_mask smallest 255 ;;
  cv2_dilate dust_mask kernel_size 1.

(** [cv2.split] and [cv2.merge] *)
Definition cv2_split (img : image) : list image :=
  map (fun c => map_items (fun px => [nth c px 0]) img)
      (seq 0 (channels img)).

Definition cv2_merge (planes : list image) : image :=
  match planes with
  | [] => mk_ndarray 0 0 []
  | p :: _ =>
      build (shape0 p) (shape1 p)
            (fun i j => map (fun q => hd 0 (item q i j)) planes)
  end.

Fixpoint for_each {A B} (f : A -> result B) (l : list A) : result (list B) :=
  match l with
  | [] => Ok []
  | x :: l' => y <- f x ;; ys <- for_each f l' ;; Ok (y :: ys)
  end.

(** [fill_dust(self, img, dust_mask)]: uses dust threshold image to erase
    dust.  A grey buffer is its one channel. *)
Definition fill_dust (self : photo) (img dust_mask : image) : result image :=
  let channels := cv2_split img in
  filled <- for_each (fun channel => cv2_inpaint channel dust_mask) channels ;;
  Ok (cv2_merge filled).

(** [np.divide(x1, x2, out=out, where=where)]: the quotient is computed,
    and stored, at the positions where [where] holds; [out] keeps its value
    elsewhere. *)
Fixpoint np_divide (x1 : R) (x2 out : list R) (where_ : list bool) : list R :=
  match x2, out, where_ with
  | d :: x2', o :: out', b :: where' =>
      (if b then x1 / d else o) :: np_divide x1 x2' out' where'
  | _, _, _ => []
  end.


(** [a > 0] on an array *)
Definition positive (a : list R) : list bool :=
  map (fun v => if Rlt_dec 0 v then true else false) a.

(** multiplier to adjust degree at which the sliders affect the output
    image *)
Definition sensitivity : R := 0.2.

(** Lines 472-478 of [hist_EQ] *)
Definition black_point_of (self : photo) (sample_img : image) : list R :=
  let film_type := film_type (params self) in
  if base_detect (params self) && ((film_type =? 1)%Z || (film_type =? 2)%Z)
  then
    (* np.array(self.base_rgb, np.uint16)[::-1] * 256 *)
    let base :=
      map (fun v => to_uint16 (to_uint16 v * 256))
          (rev (base_rgb (params self))) in
    if (film_type =? 1)%Z then map (fun v => IZR (to_uint16 (65535 - v))) base
    else map IZR base
  else percentile_axes01 sample_img (black_point_percentile cp).

(** Line 479 of [hist_EQ] *)
Definition black_offsets_of (self : photo) (sample_img : image) : list R :=
  map (fun b => black_point (params self) / 100 * sensitivity * 65535 - b)
      (black_point_of self sample_img).

(** Line 487 of [hist_EQ], on the sample shifted by the black offsets *)
Definition white_point_of (sample_img : image) : list R :=
  percentile_axes01 sample_img (white_point_percentile cp).

(** Lines 486-488 of [hist_EQ]: division, but ignore divide by zero or
    negative. *)
Definition white_multipliers_of (self : photo) (black_offsets : list R)
  (sample_img : image) : list R :=
  let max_array := map (fun _ => 1) black_offsets in
  let white_point' := white_point_of sample_img in
  np_divide (65535 + white_point (params self) / 100 * sensitivity * 65535)
            white_point' max_array (positive white_point').

(** [hist_EQ(self, img)]: equalizes histogram for each color channel. *)
Definition hist_EQ (self : photo) (img : image) : result image :=
  rect <- getattr (rect self) ;;
  sample_img <- crop self img rect true ;;
  let black_offsets := black_offsets_of self sample_img in
  let img := broadcast Rplus img black_offsets in  (* Sets the black point *)
  let sample_img := broadcast Rplus sample_img black_offsets in
  let white_multipliers :=
    white_multipliers_of self black_offsets sample_img in
  (* Scales the white percentile to 65535 *)
  Ok (broadcast Rmult img white_multipliers).

(** [matplotlib.colors.Normalize(vmin, vmax, clip)] applied to a sample *)
Definition Normalize (vmin vmax : R) (clip : bool) (v : R) : R :=
  let v := if clip then np_clip v vmin vmax else v in
  (v - vmin) / (vmax - vmin).

(** Lines 572-579 of [exposure], on one normalized sample: the gamma
    curve, then the shadow and the highlight terms. *)
Definition exposure_curve (self : photo) (img : R) : R :=
  (* gamma adjustment via gamma correction *)
  let img := np_power img (pow2 (- gamma (params self) / 100)) in
  (* Highlights and shadows formula *)
  let shadows_coefficient :=
    4.15e-5 * shadows (params self) ^ 2 + 0.02185 * shadows (params self) in
  let img := img + (shadows_coefficient * Rmin (img - 0.75) 0 ^ 2) * img in
  let highlights_coefficient :=
    - 4.15e-5 * highlights (params self) ^ 2
    + 0.02185 * highlights (params self) in
  img + (highlights_coefficient * Rmax (img - 0.25) 0 ^ 2) * (1 - img).

(** [exposure] on one sample: normalization to [0, 1], the curve, and the
    original range restored. *)
Definition exposure_sample (self : photo) (v : R) : R :=
  let img := Normalize 0 65535 true v in
  let img := exposure_curve self img in
  (* restores orginal range prior to normalization *)
  img * 65535.

(** [exposure(self, img)]: exposure adjustment. *)
Definition exposure (self : photo) (img : image) : image :=
  elementwise (exposure_sample self) img.

(** [pixel[1] = v] *)
Definition set_channel_1 (v : R -> R) (px : pixel) : pixel :=
  match px with
  | h :: s :: rest => h :: v s :: rest
  | _ => px
  end.

(** [sat_adjust(self, img)]: applies saturation adjustment factors. *)
Definition sat_adjust (self : photo) (img : image) : image :=
  if Req_dec_T (sat (params self)) 100 then img else
  let sat_adjust := sat (params self) / 100 in
  (* Convert from bgr to rgb, and normalize input to (0,1) *)
  let img := map_items (fun px => map (Normalize 0 65535 true) (rev px)) img in
  let img := map_items rgb_to_hsv img in
  let img :=
    map_items (set_channel_1 (fun s => np_clip (s * sat_adjust) 0 1)) img in
  let img := map_items hsv_to_rgb img in
  map_items (fun px => map (fun v => v * 65535) (rev px)) img.

(** [img.clip(0, 65535).astype(np.uint16, copy=True)] *)
Definition clip_uint16 (img : image) : image :=
  elementwise (fun v => IZR (py_int (np_clip v 0 65535))) img.

(** [65535 - img]: invert to create positive image *)
Definition invert (img : image) : image :=
  elementwise (fun v => 65535 - v) img.

Local Open Scope photo_scope.

(** [max(min(v, 100), -100)] *)
Definition clamp100 (v : R) : R := Rmax (Rmin v 100) (- 100).

(** The white balance picker of [wb_adjust], [wb_adjust_coeff] and
    [wb_adjust_gamma]: the mean BGR of the cropped [img] within a small
    circle at the picked coordinates. *)
Definition picker_mean (self : photo) (img : image) : result (R * R * R * R) :=
  ('(x, y, r) <- getattr (wb_picker_params self) ;;
   rect <- getattr (rect self) ;;
   cropped <- crop self img rect false ;;
   (* blank mask, rotated to same orientation as preview image *)
   let wb_mask := rotate self (zeros_plane cropped) false in
   let x := py_int (x * INR (shape1 wb_mask)) in
   let y := py_int (y * INR (shape0 wb_mask)) in
   let radius :=
     py_int (INR (Nat.min (shape0 wb_mask) (shape1 wb_mask)) * r) in
   wb_mask <- cv2_circle_filled wb_mask (x, y) radius 255 ;;
   (* rotate image back to default orientation *)
   let wb_mask := rotate self wb_mask true in
   cropped <- crop self img rect false ;;
   cv2_mean cropped wb_mask)%result.

(** [wb_adjust(self, img)]: white balance adjustment factors as scalars
    added to RGB, not used. *)
Definition wb_adjust (img : image) : M image :=
  let multiplier := 200 in
  self <-- eval Ok ;;
  (if pick_wb self then
     assign (set_pick_wb false) ;;;
     '(m0, m1, m2, _) <-- eval (fun self => picker_mean self img) ;;
     let G_offset := (m0 + m2) / 2 - m1 in
     let RB_offset := m0 - (m0 + m2) / 2 in
     assign (fun self =>
               set_params (with_temp (clamp100 (RB_offset / multiplier))
                                     (params self)) self) ;;;
     assign (fun self =>
               set_params (with_tint (clamp100 (G_offset / multiplier))
                                     (params self)) self)
   else mret tt) ;;;
  self <-- eval Ok ;;
  let temp := temp (params self) in
  let tint := tint (params self) in
  let adjustment :=
    [- temp * multiplier; - tint * multiplier; temp * multiplier] in
  mret (broadcast Rplus img adjustment).

(** [wb_adjust_coeff(self, img)]: white balance adjustment factors as
    coefficients multiplied into RGB. *)
Definition wb_adjust_coeff (img : image) : M image :=
  let multiplier := 200 in
  self <-- eval Ok ;;
  (if pick_wb self then
     assign (set_pick_wb false) ;;;
     '(B, G, R_, _) <-- eval (fun self => picker_mean self img) ;;
     tint' <-- eval (fun _ =>
       (gb <- py_truediv G B ;;
        gr <- py_truediv G R_ ;;
        d <- py_truediv (B * (G + R_) + R_ * G) (B * R_) ;;
        q <- py_truediv (gb + gr - 2) d ;;
        Ok (clamp100 (q * multiplier)))%result) ;;
     assign (fun self => set_params (with_tint tint' (params self)) self) ;;;
     temp' <-- eval (fun self =>
       (q <- py_truediv
               ((2 * G - (2 * G + R_) * tint (params self) / multiplier) / 2)
               R_ ;;
        Ok (clamp100 ((q - 1) * multiplier)))%result) ;;
     assign (fun self => set_params (with_temp temp' (params self)) self)
   else mret tt) ;;;
  self <-- eval Ok ;;
  let temp := temp (params self) in
  let tint := tint (params self) in
  mret (broadcast Rmult img
          [1 - temp / multiplier + tint / multiplier / 2;
           1 - tint / multiplier;
           1 + temp / multiplier + tint / multiplier / 2]).

(** [np.log2] *)
Definition log2 (v : R) : R := ln v / ln 2.

(** [wb_adjust_gamma(self, img)]: white balance adjustment factors using
    gamma function, not used. *)
Definition wb_adjust_gamma (img : image) : M image :=
  let img := elementwise (fun v => v / 65535) img in
  self <-- eval Ok ;;
  (if pick_wb self then
     assign (set_pick_wb false) ;;;
     '(m0, m1, m2, _) <-- eval (fun self => picker_mean self img) ;;
     let target := (m0 + m2) / 2 in
     assign (fun self =>
               set_params (with_temp (100 * log2 (ln target / ln m0))
                                     (params self)) self) ;;;
     assign (fun self =>
               set_params (with_tint (- 100 * log2 (ln target / ln m1))
                                     (params self)) self)
   else mret tt) ;;;
  self <-- eval Ok ;;
  let temp := temp (params self) in
  let tint := tint (params self) in
  let img :=
    map_items (fun px => zip_with np_power px
                 [pow2 (temp / 100); pow2 (tint / 100); pow2 (- temp / 100)])
              img in
  (* restores orginal range prior to normalization *)
  mret (elementwise (fun v => v * 65535) img).

(** [bw_negative_processing(self, img)] *)
Definition bw_negative_processing (img : image) : M image :=
  img <-- eval (fun _ => cv2_cvtColor img COLOR_BGR2GRAY) ;;  (* to b/w *)
  let img := invert img in
  img <-- eval (fun self => hist_EQ self img) ;;
  img <-- eval (fun self => Ok (exposure self img)) ;;
  mret (clip_uint16 img).

(** [slide_processing(self, img)] *)
Definition slide_processing (img : image) : M image :=
  img <-- eval (fun self => hist_EQ self img) ;;  (* Maximizes dynamic range *)
  (* different ways to adjust wb, for debugging *)
  let wb_mode := [wb_adjust; wb_adjust_coeff; wb_adjust_gamma] in
  img <-- nth 1 wb_mode mret img ;;  (* modifiers for white balancing *)
  img <-- eval (fun self => Ok (exposure self img)) ;;
  img <-- eval (fun self => Ok (sat_adjust self img)) ;;
  mret (clip_uint16 img).

(** [colour_negative_processing(self, img)] *)
Definition colour_negative_processing (img : image) : M image :=
  let img := invert img in  (* invert to create positive image *)
  (* The rest of the processing is identical to slide_processing *)
  slide_processing img.

(** [crop_only(self, img)]: no processing required. *)
Definition crop_only (img : image) : M image := mret img.

(** [load(self, full_res=False)]: loads the RAW file into memory. *)
Definition load (full_res : bool) : M unit :=
  let loaded : M unit :=
    assign (set_FileReadError false) ;;;
    raw <-- eval (RAW_IMG_array AttributeError) ;;
    (* estimation of memory requirements based on the size of the image *)
    assign (set_memory_alloc (Some (np_nbytes raw * 4 * 12)%Z)) in
  self <-- eval Ok ;;
  match read_file (file_directory self) (negb full_res) with
  | rawpy_decoded raw color_desc =>
      assign (set_RAW_IMG (Some (Some raw))) ;;;
      assign (set_colour_desc (Some color_desc)) ;;;
      (* RawPy sometimes misreads the RAW image size, this removes any extra
         black borders *)
      trimmed <-- eval (fun _ =>
        (scaled <- cv2_convertScaleAbs raw (255 / 65535) ;;
         gray <- cv2_cvtColor scaled COLOR_RGB2GRAY ;;
         thresh <- cv2_threshold gray 0 255 THRESH_BINARY ;;
         contours <- cv2_findContours thresh RETR_EXTERNAL ;;
         cnt <- py_max_by cv2_contourArea contours ;;
         let '(x, y, w, h) := cv2_boundingRect cnt in
         Ok (map_items (@rev R) (np_slice y (y + h) x (x + w) raw)))%result) ;;
      assign (set_RAW_IMG (Some (Some trimmed))) ;;;
      loaded
  | imread_array img is_uint8 =>
      assign (set_RAW_IMG (Some (Some img))) ;;;
      (if is_uint8 then  (* converts image to 16-bit *)
         assign (set_RAW_IMG (Some (Some (elementwise (fun v => v * 256) img))))
       else mret tt) ;;;
      loaded
  | imread_none =>
      assign (set_RAW_IMG (Some None)) ;;;
      (* If fails again, set error attributes *)
      assign (fun self => set_params (with_reject true (params self)) self) ;;;
      assign (set_FileReadError true)
  | imread_raised =>
      assign (fun self => set_params (with_reject true (params self)) self) ;;;
      assign (set_FileReadError true)
  end.

(** [process], lines 270-274: the load, the gate on [FileReadError] and the
    count of the running processes.  Returns whether the method goes on. *)
Definition process_start : M bool :=
  self <-- eval Ok ;;
  (if negb (hasattr (RAW_IMG self))
   then load false  (* tries to load file if it hasn't already been done *)
   else mret tt) ;;;
  self <-- eval Ok ;;
  if FileReadError self then
    mret false  (* Do not process if the file could not be read *)
  else
    assign (fun self =>
              set_active_processes (active_processes self + 1)%Z self) ;;;
    mret true.

(** [process], lines 276-307: the crop estimation, the proxy, the dust mask
    and the processing of the film type.  Returns the locals [img] and
    [dust_mask]. *)
Definition process_pipeline (full_res skip_crop : bool) : M (image * image) :=
  self <-- eval Ok ;;
  (if negb skip_crop || negb (hasattr (thresh self)) then
     '(thresh, rect, largest_contour) <-- eval find_optimal_crop ;;
     assign (set_thresh (Some thresh)) ;;;
     assign (set_rect (Some rect)) ;;;
     assign (set_largest_contour (Some largest_contour)) ;;;
     raw <-- eval (RAW_IMG_array AttributeError) ;;
     let img_size := Z.of_nat (shape0 raw + shape1 raw) in
     if (max_proxy_size cp <? img_size)%Z then
       (* Downscales the image to a smaller size *)
       let scale_factor := IZR (max_proxy_size cp) / IZR img_size in
       let x := py_int (INR (shape1 raw) * scale_factor) in
       let y := py_int (INR (shape0 raw) * scale_factor) in
       proxy_RAW_IMG <-- eval (fun _ => cv2_resize raw (x, y)) ;;
       assign (set_proxy_RAW_IMG (Some proxy_RAW_IMG)) ;;;
       assign (set_proxy true)
     else mret tt
   else mret tt) ;;;
  (* Uses a proxy to generate preview, when needed *)
  img <-- eval (fun self =>
    if proxy self && negb full_res then getattr (proxy_RAW_IMG self)
    else RAW_IMG_array AttributeError self) ;;
  dust_mask <-- eval (fun self =>
    (rect <- getattr (rect self) ;;
     cropped <- crop self img rect false ;;
     find_dust self cropped)%result) ;;
  (* Additional processing specific to each film type *)
  self <-- eval Ok ;;
  img <--
    match film_type (params self) with
    | 0%Z => bw_negative_processing img
    | 1%Z => colour_negative_processing img
    | 2%Z => slide_processing img
    | 3%Z => crop_only img
    | _ => mret img
    end ;;
  img <-- eval (fun self =>
    (rect <- getattr (rect self) ;; crop self img rect false)%result) ;;
  mret (img, dust_mask).

(** [process], lines 309-316: the end of the run, which commits the result
    or drops it. *)
Definition process_finish (recent_only : bool) (img dust_mask : image)
  : M unit :=
  assign (fun self =>
            set_active_processes (active_processes self - 1)%Z self) ;;;
  self <-- eval Ok ;;
  if recent_only && (0 <? active_processes self)%Z then
    mret tt  (* skip displaying final image if it is not the last active
                process *)
  else
    (* Set all the global variables once processing is finished *)
    assign (set_IMG (Some img)) ;;;
    assign (set_dust_mask (Some dust_mask)) ;;;
    assign (set_processed true).

(** [process(self, full_res=False, recent_only=False, skip_crop=False)] *)
Definition process (full_res recent_only skip_crop : bool) : M unit :=
  go_on <-- process_start ;;
  if go_on then
    '(img, dust_mask) <-- process_pipeline full_res skip_crop ;;
    process_finish recent_only img dust_mask
  else mret tt.

Local Close Scope photo_scope.
Local Open Scope string_scope.

(** [add_frame(self, img)]: skip if aspect ratio and frame have default
    values, otherwise centre the image inside a white frame. *)
Definition add_frame (img : image) : result image :=
  if Req_dec_T (frame cp) 0 then
    if String.eqb (fit_aspect_ratio cp) "Keep Original" then Ok img
    else framed cp img
  else framed cp img.

(** The [output] argument of [get_IMG]. *)
Inductive output_kind : Type :=
| output_RAW
| output_Threshold
| output_Contours
| output_Histogram
| output_default.   (* None and any other value *)

(** What [get_IMG] returns: the array, or the PIL image made from it. *)
Inductive returned_image : Type :=
| as_ndarray (img : image)
| as_PIL (img : image).

(** The crop boxes of the 'Contours' output of [get_IMG] (lines 161-187). *)
Definition draw_crop_boxes (self : photo) (img : image) (rect : RotatedRect)
  : result image :=
  let border_crop := border_crop (params self) in
  '(x_crop, y_crop) <-
    (if (shape1 img <? shape0 img)%nat then
       y_crop <- py_truediv (border_crop * INR (shape1 img))
                            (INR (shape0 img)) ;;
       Ok (border_crop, y_crop)
     else
       x_crop <- py_truediv (border_crop * INR (shape0 img))
                            (INR (shape1 img)) ;;
       Ok (x_crop, border_crop)) ;;
  let y := INR (shape0 img) in
  let x := INR (shape1 img) in
  let rect :=
    mk_rect (fst (rect0 rect) * y, snd (rect0 rect) * x)
            (fst (rect1 rect) * y, snd (rect1 rect) * x)
            (rect2 rect) in
  let box := cv2_boxPoints rect in
  let box := map (fun p => (py_int (fst p), py_int (snd p))) box in
  extra_crop_box <- shrink_box box x_crop y_crop ;;
  let EQ_ignore_box := extra_crop_box in
  EQ_ignore_box <-
    (if (if Rlt_dec border_crop 0 then true else false)
        && ignore_neg_border cp
     then shrink_box EQ_ignore_box (- x_crop) (- y_crop)
     else Ok EQ_ignore_box) ;;
  EQ_ignore_box <-
    shrink_box EQ_ignore_box (fst (ignore_border cp)) (snd (ignore_border cp)) ;;
  largest_contour <- getattr (largest_contour self) ;;
  crop_boxes_overlay img box extra_crop_box EQ_ignore_box largest_contour.

(** [get_IMG(self, output=None, as_array=False)]: returns the converted
    image at different stages of the process, based on desired output;
    [None] is Python's. *)
Definition get_IMG (self : photo) (output : output_kind) (as_array : bool)
  : result (option returned_image) :=
  if FileReadError self then
    Ok None  (* Return nothing when file could not be read *)
  else
    img <-
      match output with
      | output_RAW =>
          raw <- RAW_IMG_array cv2_error self ;;
          Ok (rotate self raw false)
      | output_Threshold =>
          img <- getattr (thresh self) ;;
          Ok (rotate self img false)
      | output_Contours =>
          thresh <- getattr (thresh self) ;;
          raw <- RAW_IMG_array cv2_error self ;;
          img <- threshold_overlay raw thresh ;;
          rect <- getattr (rect self) ;;
          img <-
            match rect with
            | Some rect => draw_crop_boxes self img rect
            | None => Ok img
            end ;;
          Ok (rotate self img false)
      | output_Histogram =>
          img <- getattr (IMG self) ;;
          histogram_plot cp img
      | output_default =>
          img <- getattr (IMG self) ;;
          img <-
            (if remove_dust (params self) then
               dust_mask <- getattr (dust_mask self) ;;
               fill_dust self img dust_mask
             else Ok img) ;;
          img <- add_frame img ;;  (* add decorative white frame *)
          Ok (rotate self img false)
      end ;;
    if as_array then Ok (Some (as_ndarray img))
    else
      img <-
        (if np_is_uint16 img then cv2_convertScaleAbs img (255 / 65535)
         else Ok img) ;;
      img <- cv2_cvtColor img COLOR_BGR2RGB ;;  (* Convert back to RGB *)
      Ok (Some (as_PIL img)).

(** [d[ifd][tag] = value] in piexif's dictionary *)
Definition exif_set (ifd tag value : string) (d : exif_dict) : exif_dict :=
  ((ifd, tag), value)
    :: filter (fun e => negb (String.eqb (fst (fst e)) ifd
                              && String.eqb (snd (fst e)) tag)) d.

(** [get_exif_bytes(self)]: the exif data of the image, overwritten with
    the exif parameters of the global settings.  The dictionary is
    [self.exif_data] itself, so the method assigns to it. *)
Definition get_exif_bytes : M exif_dict :=
  let set_if (value ifd tag : string) (d : exif_dict) : exif_dict :=
    if String.eqb value EmptyString then d else exif_set ifd tag value d in
  mbind
    (assign (fun self =>
       let d := exif_data self in
       let d := exif_set "0th" "Software" "Film Scan Converter" d in
       let d := set_if (camera_make xp) "0th" "Make" d in
       let d := set_if (camera_model xp) "0th" "Model" d in
       let d := set_if (date_time_original xp) "Exif" "DateTimeOriginal" d in
       let d := set_if (lens_make xp) "Exif" "LensMake" d in
       let d := set_if (lens_model xp) "Exif" "LensModel" d in
       set_exif_data d self))
    (fun _ => eval (fun self => Ok (exif_data self))).

(** A file written to disk. *)
Inductive written_file : Type :=
| JPEG_file (name : string) (img : image) (quality : Z) (exif : exif_dict)
| TIFF_file (name : string) (img : image) (compression : Z)
| imwrite_file (name : string) (img : image)
| npy_file (name : string) (params_dict : processing_parameters).

(** An argument of OpenCV that must be an array: [None] is refused. *)
Definition array_argument (r : option returned_image) : result image :=
  match r with
  | Some (as_ndarray img) => Ok img
  | Some (as_PIL img) => Raise cv2_error
  | None => Raise cv2_error
  end.

(** [export(self, filename)]: saves final image to disk.  Returns the file
    it has written, if any. *)
Definition export (filename : string) : M (option written_file) :=
  mbind (eval Ok) (fun self =>
  if negb (hasattr (IMG self)) then mret None else
  mbind (eval (fun self => get_IMG self output_default true)) (fun img =>
  let filename := (filename ++ "." ++ filetype cp)%string in
  if String.eqb (filetype cp) "JPG" then
    (* Must convert to 8-bit image before exporting as JPG *)
    mbind (eval (fun _ =>
             img <- array_argument img ;;
             img_8bit <- cv2_convertScaleAbs img (255 / 65535) ;;
             cv2_cvtColor img_8bit COLOR_RGB2BGR)) (fun img_pil =>
    mbind get_exif_bytes (fun exif =>
    mret (Some (JPEG_file filename img_pil (jpg_quality cp) exif))))
  else if String.eqb (filetype cp) "TIFF" then
    mbind (eval (fun _ => array_argument img)) (fun img =>
    mret (Some (TIFF_file filename img (tiff_compression cp))))
  else
    mbind (eval (fun _ => array_argument img)) (fun img =>
    mret (Some (imwrite_file filename img))))).

(** [s.split('.')[0]] *)
Fixpoint before_dot (s : string) : string :=
  match s with
  | EmptyString => EmptyString
  | String c s' =>
      if Ascii.eqb c "."%char then EmptyString else String c (before_dot s')
  end.

(** [save_settings(self)]: saves the processing parameters to a file, which
    uses the same name as the input file.  Returns the file written. *)
Definition save_settings (self : photo) : written_file :=
  let directory :=
    (config_path self ++ "/" ++ before_dot (filename self) ++ ".npy")%string in
  npy_file directory (params self).

Local Close Scope string_scope.
Local Open Scope photo_scope.

(** [clear_memory(self)]: deletes instances of images to save memory. *)
Definition clear_memory : M unit :=
  assign (set_IMG None) ;;;
  assign (set_thresh None) ;;;
  assign (set_RAW_IMG None) ;;;
  assign (set_proxy_RAW_IMG None) ;;;
  assign (set_dust_mask None) ;;;
  assign (set_processed false).

(** [set_wb_from_picker(self, x, y)] *)
Definition set_wb_from_picker (x y : R) : M unit :=
  assign (set_wb_picker_params (Some (x, y, picker_radius cp / 100))) ;;;
  (* sets flag to measure and set white balance on next processing *)
  assign (set_pick_wb true) ;;;
  process false false false.

(** [get_base_colour(self, x, y)] *)
Definition get_base_colour (x y : R) : M unit :=
  raw <-- eval (RAW_IMG_array TypeError) ;;
  self <-- eval Ok ;;
  (* blank mask, rotated to same orientation as preview image *)
  let base_mask := rotate self (zeros_plane raw) false in
  let x := py_int (x * INR (shape1 base_mask)) in
  let y := py_int (y * INR (shape0 base_mask)) in
  let radius :=
    py_int (INR (Nat.min (shape0 base_mask) (shape1 base_mask))
            * picker_radius cp / 100) in
  '(B, G, R_, _) <-- eval (fun self =>
    (base_mask <- cv2_circle_filled base_mask (x, y) radius 255 ;;
     (* rotate image back to default orientation *)
     let base_mask := rotate self base_mask true in
     raw <- cv2_convertScaleAbs raw (255 / 65535) ;;
     cv2_mean raw base_mask)%result) ;;
  assign (fun self =>
    set_params (with_base_rgb [py_round R_; py_round G; py_round B]
                              (params self)) self).

(** ** Overlapping runs of [process] on one photo

    Each [process] invocation is a unit of work that may overlap other
    invocations on the same photo.  A run advances in three steps, the three
    parts of the method above; between the steps of one run the steps of
    other runs may take place, all on the same [self].  The locals [img] and
    [dust_mask] of a run are its own. *)

Record call : Type := {
  full_res : bool;
  recent_only : bool;
  skip_crop : bool
}.

Inductive run : Type :=
| called (c : call)                           (* not yet at line 270 *)
| started (c : call)                          (* past line 274 *)
| computed (c : call) (img dust_mask : image) (* past line 307 *)
| returned
| raised (counted : bool) (e : exn).
    (* left by an exception, after line 274 when [counted] *)

Definition step_run (r : run) (self : photo) : run * photo :=
  match r with
  | called c =>
      match process_start self with
      | (Ok true, self') => (started c, self')
      | (Ok false, self') => (returned, self')
      | (Raise e, self') => (raised false e, self')
      end
  | started c =>
      match process_pipeline (full_res c) (skip_crop c) self with
      | (Ok (img, dust_mask), self') => (computed c img dust_mask, self')
      | (Raise e, self') => (raised true e, self')
      end
  | computed c img dust_mask =>
      match process_finish (recent_only c) img dust_mask self with
      | (Ok _, self') => (returned, self')
      | (Raise e, self') => (raised true e, self')
      end
  | returned => (returned, self)
  | raised counted e => (raised counted e, self)
  end.

(** The runs that have added themselves to [active_processes] and have not
    taken themselves off it: those between lines 274 and 309, and those
    that an exception has ended there. *)
Definition counted_run (r : run) : Z :=
  match r with
  | started _ | computed _ _ _ | raised true _ => 1
  | called _ | returned | raised false _ => 0
  end.

Definition counted_runs (pool : list run) : Z :=
  fold_right Z.add 0%Z (map counted_run pool).

(** One step of the [n]-th run of the pool. *)
Fixpoint step_pool (n : nat) (pool : list run) (self : photo)
  : list run * photo :=
  match pool, n with
  | [], _ => ([], self)
  | r :: pool', O =>
      let (r', self') := step_run r self in (r' :: pool', self')
  | r :: pool', S n' =>
      let (pool'', self') := step_pool n' pool' self in (r :: pool'', self')
  end.

(** A schedule names the run that takes each step. *)
Fixpoint run_schedule (schedule : list nat) (pool : list run) (self : photo)
  : list run * photo :=
  match schedule with
  | [] => (pool, self)
  | n :: schedule' =>
      let (pool', self') := step_pool n pool self in
      run_schedule schedule' pool' self'
  end.

(** The externally visible current result of a photo. *)
Definition visible (self : photo) : option image * option image * bool :=
  (IMG self, dust_mask self, processed self).

(** ** The film-type pipelines as the specification words them *)

(** SLIDE: ToneEqualizer, then the multiplicative WhiteBalancer, then
    ExposureCurve, then SaturationAdjuster, then clip to [0, 65535]. *)
Definition spec_SLIDE (img : image) : M image :=
  toned <-- eval (fun self => hist_EQ self img) ;;
  balanced <-- wb_adjust_coeff toned ;;
  exposed <-- eval (fun self => Ok (exposure self balanced)) ;;
  saturated <-- eval (fun self => Ok (sat_adjust self exposed)) ;;
  mret (elementwise (fun v => IZR (py_int (np_clip v 0 65535))) saturated).

(** COLOR_NEGATIVE: invert, then the same path as SLIDE. *)
Definition spec_COLOR_NEGATIVE (img : image) : M image :=
  spec_SLIDE (elementwise (fun v => 65535 - v) img).

End Methods.

(** ** Framing *)

(** A method keeps an observation [f] of the photo when [f] reads the same
    after the method as before, whether it returns or raises. *)
Definition keeps {X A : Type} (f : photo -> X) (m : M A) : Prop :=
  forall self, f (snd (m self)) = f self.

(** An observation that does not read the attributes that [load] and the
    pipeline of [process] assign. *)
Record pipeline_frame {X : Type} (f : photo -> X) : Prop := {
  frame_params : forall v self, f (set_params v self) = f self;
  frame_proxy : forall v self, f (set_proxy v self) = f self;
  frame_FileReadError : forall v self, f (set_FileReadError v self) = f self;
  frame_pick_wb : forall v self, f (set_pick_wb v self) = f self;
  frame_colour_desc : forall v self, f (set_colour_desc v self) = f self;
  frame_RAW_IMG : forall v self, f (set_RAW_IMG v self) = f self;
  frame_proxy_RAW_IMG : forall v self, f (set_proxy_RAW_IMG v self) = f self;
  frame_thresh : forall v self, f (set_thresh v self) = f self;
  frame_rect : forall v self, f (set_rect v self) = f self;
  frame_largest_contour :
    forall v self, f (set_largest_contour v self) = f self;
  frame_memory_alloc : forall v self, f (set_memory_alloc v self) = f self
}.

(** ** Initial values and example instances *)

(** [RawProcessing.default_parameters] *)
Definition default_parameters : class_parameters := {|
  max_proxy_size := 2000;
  frame := 0;
  jpg_quality := 90;
  tiff_compression := 8;
  black_point_percentile := 0.5;
  white_point_percentile := 99.0;
  ignore_border := (1, 1);
  ignore_neg_border := true;
  dust_threshold := 10;
  max_dust_area := 15;
  dust_iter := 5;
  picker_radius := 0.5;
  filetype := "JPG";
  fit_aspect_ratio := "Keep Original"
|}.

(** [RawProcessing.exif_parameters] as the class declares it *)
Definition default_exif_parameters : exif_parameters := {|
  camera_make := EmptyString;
  camera_model := EmptyString;
  lens_make := EmptyString;
  lens_model := EmptyString;
  date_time_original := EmptyString
|}.

(** The processing parameters of [__init__] when neither a saved file nor
    the global settings give them: every one is set to 0. *)
Definition zero_settings : processing_parameters := {|
  dark_threshold := 0;
  light_threshold := 0;
  border_crop := 0;
  flip := false;
  rotation := 0;
  film_type := 0;
  white_point := 0;
  black_point := 0;
  gamma := 0;
  shadows := 0;
  highlights := 0;
  temp := 0;
  tint := 0;
  sat := 0;
  reject := false;
  base_detect := false;
  base_rgb := [];
  remove_dust := false
|}.

(** The instance variables after [__init__]. *)
Definition init_photo (file_directory filename config_path : string)
  (settings : processing_parameters) (exif : exif_dict) : photo := {|
  params := settings;
  processed := false;
  proxy := false;
  FileReadError := false;
  active_processes := 0;
  pick_wb := false;
  file_directory := file_directory;
  filename := filename;
  config_path := config_path;
  colour_desc := None;
  exif_data := exif;
  RAW_IMG := None;
  proxy_RAW_IMG := None;
  thresh := None;
  rect := None;
  largest_contour := None;
  IMG := None;
  dust_mask := None;
  wb_picker_params := None;
  memory_alloc := None
|}.

Module Example.

(** A stand-in for the libraries: the filters return their input, contour
    detection finds [contours], whose area is their number of points and
    whose bounding rectangle is [rect], and the file reads as [file]. *)
Definition libraries (contours : list contour) (rect : RotatedRect)
  (file : read_outcome) : Extern := {|
  read_file := fun _ _ => file;
  cv2_convertScaleAbs := fun img _ => Ok img;
  cv2_cvtColor := fun img _ => Ok img;
  cv2_threshold := fun img _ _ _ => Ok img;
  cv2_bitwise_and := fun img _ => Ok img;
  cv2_erode := fun img _ _ => Ok img;
  cv2_dilate := fun img _ _ => Ok img;
  cv2_findContours := fun _ _ => Ok contours;
  cv2_contourArea := fun c => INR (length c);
  cv2_minAreaRect := fun _ => rect;
  cv2_boundingRect := fun _ => (0, 0, 0, 0)%Z;
  cv2_boxPoints := fun _ => [];
  cv2_getPerspectiveTransform := fun _ _ => Ok [];
  cv2_warpPerspective := fun img _ _ => Ok img;
  cv2_resize := fun img _ => Ok img;
  cv2_drawContours_filled := fun img _ _ => Ok img;
  cv2_inpaint := fun img _ => Ok img;
  cv2_circle_filled := fun img _ _ _ => Ok img;
  cv2_mean := fun _ _ => Ok (0, 0, 0, 0);
  np_percentile := fun _ _ => 0;
  np_nbytes := fun _ => 0%Z;
  np_is_uint16 := fun _ => true;
  rgb_to_hsv := fun px => px;
  hsv_to_rgb := fun px => px;
  threshold_overlay := fun img _ => Ok img;
  crop_boxes_overlay := fun img _ _ _ _ => Ok img;
  histogram_plot := fun _ img => Ok img;
  framed := fun _ img => Ok img
|}.

(** Settings under which a particle of a 2 x 2 buffer may cover up to 2.5
    pixels: [(2 / 800) ^ 2 * 400000]. *)
Definition coarse : class_parameters := {|
  max_proxy_size := 2000;
  frame := 0;
  jpg_quality := 90;
  tiff_compression := 8;
  black_point_percentile := 0.5;
  white_point_percentile := 99.0;
  ignore_border := (1, 1);
  ignore_neg_border := true;
  dust_threshold := 10;
  max_dust_area := 400000;
  dust_iter := 5;
  picker_radius := 0.5;
  filetype := "JPG";
  fit_aspect_ratio := "Keep Original"
|}.

(** A 2 x 2 colour buffer. *)
Definition scan : image :=
  mk_ndarray 2 2
    [ [ [1000; 0; 65535]; [30000; 20000; 10000] ];
      [ [12; 34; 56]; [65535; 65535; 0] ] ].

(** A rectangle that OpenCV reports at -10 degrees. *)
Definition tilted : RotatedRect := mk_rect (1, 1) (2, 1) (- 10).

(** A small contour and a large one. *)
Definition speck : contour := [(1, 1)%Z].
Definition blot : contour := [(0, 0); (0, 1); (1, 1); (1, 0)]%Z.

(** A photo after [__init__], and the same with its file loaded. *)
Definition fresh : photo :=
  init_photo "scan.dng" "scan.dng" "config" zero_settings [].

Definition loaded : photo := set_RAW_IMG (Some (Some scan)) fresh.

(** A photo whose load has failed: [cv2.imread] returned [None]. *)
Definition unreadable : photo :=
  set_FileReadError true
    (set_params (with_reject true zero_settings)
       (set_RAW_IMG (Some None) fresh)).

(** A photo rotated by a quarter turn and flipped. *)
Definition turned : photo :=
  set_params
    {| dark_threshold := 0; light_threshold := 0; border_crop := 0;
       flip := true; rotation := 1; film_type := 3;
       white_point := 0; black_point := 0; gamma := 0; shadows := 0;
       highlights := 0; temp := 0; tint := 0; sat := 100;
       reject := false; base_detect := false; base_rgb := [];
       remove_dust := false |}
    loaded.

End Example.

(** ** Further example instances *)

Module Sample.

(** A buffer of one row and two columns. *)
Definition strip : image :=
  mk_ndarray 1 2 [ [ [1; 2; 3]; [4; 5; 6] ] ].

(** The corners of an upright box of 10 by 5 pixels. *)
Definition upright : box_points := [(0, 0); (10, 0); (10, 5); (0, 5)]%Z.

(** A photo whose crop estimation has found no rectangle. *)
Definition cropless : photo := set_rect (Some None) Example.turned.

(** The same with the white balance picker armed, at the centre of the
    preview. *)
Definition armed : photo :=
  set_pick_wb true
    (set_wb_picker_params (Some (1 / 2, 1 / 2, 1 / 200)) cropless).

(** The stand-in libraries of the examples, with [cv2.mean] returning
    [mean]. *)
Definition libraries_with_mean (mean : R * R * R * R) : Extern :=
  let base := Example.libraries [] Example.tilted imread_none in {|
  read_file := @read_file base;
  cv2_convertScaleAbs := @cv2_convertScaleAbs base;
  cv2_cvtColor := @cv2_cvtColor base;
  cv2_threshold := @cv2_threshold base;
  cv2_bitwise_and := @cv2_bitwise_and base;
  cv2_erode := @cv2_erode base;
  cv2_dilate := @cv2_dilate base;
  cv2_findContours := @cv2_findContours base;
  cv2_contourArea := @cv2_contourArea base;
  cv2_minAreaRect := @cv2_minAreaRect base;
  cv2_boundingRect := @cv2_boundingRect base;
  cv2_boxPoints := @cv2_boxPoints base;
  cv2_getPerspectiveTransform := @cv2_getPerspectiveTransform base;
  cv2_warpPerspective := @cv2_warpPerspective base;
  cv2_resize := @cv2_resize base;
  cv2_drawContours_filled := @cv2_drawContours_filled base;
  cv2_inpaint := @cv2_inpaint base;
  cv2_circle_filled := @cv2_circle_filled base;
  cv2_mean := fun _ _ => Ok mean;
  np_percentile := @np_percentile base;
  np_nbytes := @np_nbytes base;
  np_is_uint16 := @np_is_uint16 base;
  rgb_to_hsv := @rgb_to_hsv base;
  hsv_to_rgb := @hsv_to_rgb base;
  threshold_overlay := @threshold_overlay base;
  crop_boxes_overlay := @crop_boxes_overlay base;
  histogram_plot := @histogram_plot base;
  framed := @framed base
|}.

(** A photo flagged as using a proxy that has none: the flag is kept by
    [clear_memory], the proxy is not. *)
Definition flagged : photo := set_proxy true Example.turned.

End Sample.

(** ** Boxes *)

(** The mean width of a box, [w] in [shrink_box]: half the difference of
    its two greatest and its two least x coordinates. *)
Definition box_width (box : box_points) : R :=
  let sorted0 := sort_Z (map fst box) in
  IZR (entry sorted0 2 + entry sorted0 3
       - entry sorted0 0 - entry sorted0 1) / 2.

(** The integers of [np.int32]. *)
Definition in_int32 (z : Z) : Prop := (- 2147483648 <= z < 2147483648)%Z.

(** ** Rectangles *)


(** ** White balance *)

(** A photo without its white balance: [temp], [tint] and the flag
    [pick_wb] are put to fixed values, the rest is as it is. *)
Definition without_wb (self : photo) : photo :=
  set_pick_wb false
    (set_params (with_temp 0 (with_tint 0 (params self))) self).

(** What the white balance picker reads and writes, with the film type that
    decides whether it runs. *)
Definition picker_state (self : photo)
  : bool * option (R * R * R) * R * R * Z :=
  (pick_wb self, wb_picker_params self, temp (params self),
   tint (params self), film_type (params self)).

(** A method keeps an observation [f] on the photos where [f] satisfies
    [P]. *)
Definition keeps_on {X A : Type} (P : X -> Prop) (f : photo -> X) (m : M A)
  : Prop :=
  forall self, P (f self) -> f (snd (m self)) = f self.

(** The film types other than 1 (colour negative) and 2 (slide), on the
    state of the picker. *)
Definition other_film (s : bool * option (R * R * R) * R * R * Z) : Prop :=
  snd s <> 1%Z /\ snd s <> 2%Z.

(** ** Exif data *)

(** [d[ifd][tag]] in piexif's dictionary, [None] when the tag is absent. *)
Definition exif_get (ifd tag : string) (d : exif_dict) : option string :=
  match find (fun e => String.eqb (fst (fst e)) ifd
                       && String.eqb (snd (fst e)) tag) d with
  | Some e => Some (snd e)
  | None => None
  end.

(** The fields of [exif_parameters]. *)
Inductive exif_field : Type :=
| field_camera_make
| field_camera_model
| field_date_time_original
| field_lens_make
| field_lens_model.

(** [self.exif_parameters[field]] *)
Definition exif_parameter (xp : exif_parameters) (field : exif_field)
  : string :=
  match field with
  | field_camera_make => camera_make xp
  | field_camera_model => camera_model xp
  | field_date_time_original => date_time_original xp
  | field_lens_make => lens_make xp
  | field_lens_model => lens_model xp
  end.

Local Open Scope string_scope.

(** The ifd and the tag that [get_exif_bytes] writes a field to (lines
    219-233). *)
Definition exif_key (field : exif_field) : string * string :=
  match field with
  | field_camera_make => ("0th", "Make")
  | field_camera_model => ("0th", "Model")
  | field_date_time_original => ("Exif", "DateTimeOriginal")
  | field_lens_make => ("Exif", "LensMake")
  | field_lens_model => ("Exif", "LensModel")
  end.

Local Close Scope string_scope.

(** ** The frame *)



(** * Properties *)

(** ** Buffers *)

(** A list is the table of its items. *)
Lemma row_as_table {A : Type} (d : A) (r : list A) :
  r = map (fun j => nth j r d) (seq 0 (length r)).
Proof.
  apply (nth_ext _ _ d d).
  - now rewrite length_map, length_seq.
  - intros j Hj.
    rewrite (nth_indep (map _ _) d (nth 0 r d))
      by now rewrite length_map, length_seq.
    rewrite (map_nth (fun j => nth j r d) (seq 0 (length r)) 0%nat j).
    now rewrite seq_nth.
Qed.

Section Buffers.

Context {A : Type} `{Fill A}.

Lemma tabulate_length (h w : nat) (f : nat -> nat -> A) :
  length (tabulate h w f) = h.
Proof. unfold tabulate. now rewrite length_map, length_seq. Qed.

Lemma nth_tabulate (h w : nat) (f : nat -> nat -> A) (i j : nat) :
  (i < h)%nat -> (j < w)%nat ->
  nth j (nth i (tabulate h w f) []) fill = f i j.
Proof.
  intros Hi Hj. unfold tabulate.
  rewrite (nth_indep _ [] (map (fun j => f 0%nat j) (seq 0 w)))
    by now rewrite length_map, length_seq.
  rewrite (map_nth (fun i => map (fun j => f i j) (seq 0 w)) (seq 0 h) 0%nat i).
  rewrite seq_nth by assumption. simpl.
  rewrite (nth_indep _ fill (f i 0%nat))
    by now rewrite length_map, length_seq.
  rewrite (map_nth (fun j => f i j) (seq 0 w) 0%nat j).
  now rewrite seq_nth.
Qed.

Lemma item_build (h w : nat) (f : nat -> nat -> A) (i j : nat) :
  (i < h)%nat -> (j < w)%nat -> item (build h w f) i j = f i j.
Proof. intros. unfold item, build. simpl. now apply nth_tabulate. Qed.

Lemma tabulate_ext (h w : nat) (f g : nat -> nat -> A) :
  (forall i j, (i < h)%nat -> (j < w)%nat -> f i j = g i j) ->
  tabulate h w f = tabulate h w g.
Proof.
  intros Hfg. unfold tabulate.
  apply map_ext_in. intros i Hi. apply in_seq in Hi.
  apply map_ext_in. intros j Hj. apply in_seq in Hj.
  apply Hfg; lia.
Qed.

Lemma build_ext (h w : nat) (f g : nat -> nat -> A) :
  (forall i j, (i < h)%nat -> (j < w)%nat -> f i j = g i j) ->
  build h w f = build h w g.
Proof. intros. unfold build. f_equal. now apply tabulate_ext. Qed.

Lemma well_shaped_build (h w : nat) (f : nat -> nat -> A) :
  well_shaped (build h w f).
Proof.
  split; simpl.
  - apply tabulate_length.
  - unfold tabulate. apply Forall_forall. intros r Hr.
    apply in_map_iff in Hr. destruct Hr as [i [<- _]].
    now rewrite length_map, length_seq.
Qed.

Lemma well_shaped_table (a : ndarray A) :
  well_shaped a -> build (shape0 a) (shape1 a) (item a) = a.
Proof.
  destruct a as [h w rows]. unfold well_shaped, build, item. simpl.
  intros [Hh Hw]. f_equal. subst h. unfold tabulate. symmetry.
  etransitivity; [apply (row_as_table [] rows)|].
  apply map_ext_in. intros i Hi. apply in_seq in Hi.
  assert (Hr : length (nth i rows []) = w).
  { rewrite Forall_forall in Hw. apply Hw. apply nth_In. lia. }
  etransitivity; [apply (row_as_table fill (nth i rows []))|].
  now rewrite Hr.
Qed.

Lemma flip_columns_involutive (a : ndarray A) :
  well_shaped a -> flip_columns (flip_columns a) = a.
Proof.
  intros Ha. rewrite <- (well_shaped_table a Ha) at 2.
  unfold flip_columns at 1. simpl. apply build_ext. intros i j Hi Hj.
  unfold flip_columns. rewrite item_build by lia. f_equal. lia.
Qed.

Lemma rotate_180_involutive (a : ndarray A) :
  well_shaped a -> rotate_180 (rotate_180 a) = a.
Proof.
  intros Ha. rewrite <- (well_shaped_table a Ha) at 2.
  unfold rotate_180 at 1. simpl. apply build_ext. intros i j Hi Hj.
  unfold rotate_180. rewrite item_build by lia. f_equal; lia.
Qed.

Lemma counterclockwise_after_clockwise (a : ndarray A) :
  well_shaped a -> rotate_90_counterclockwise (rotate_90_clockwise a) = a.
Proof.
  intros Ha. rewrite <- (well_shaped_table a Ha) at 2.
  unfold rotate_90_counterclockwise. simpl. apply build_ext. intros i j Hi Hj.
  unfold rotate_90_clockwise. rewrite item_build by lia. f_equal. lia.
Qed.

Lemma clockwise_after_counterclockwise (a : ndarray A) :
  well_shaped a -> rotate_90_clockwise (rotate_90_counterclockwise a) = a.
Proof.
  intros Ha. rewrite <- (well_shaped_table a Ha) at 2.
  unfold rotate_90_clockwise. simpl. apply build_ext. intros i j Hi Hj.
  unfold rotate_90_counterclockwise. rewrite item_build by lia. f_equal. lia.
Qed.

End Buffers.

(** ** Orientation *)

(** C5.  Rotation round trip: for every image buffer, whatever the rotation
    (taken modulo 4) and the flip setting of the photo, [rotate] in forward
    mode followed by [rotate] with [undo=True] returns a buffer equal to the
    original one. *)
Theorem rotate_round_trip {A : Type} `{Fill A} (self : photo)
  (img : ndarray A) :
  well_shaped img -> rotate self (rotate self img false) true = img.
Proof.
  intros Himg. unfold rotate.
  set (r := (rotation (params self) mod 4)%Z).
  assert (Hflip : forall a : ndarray A, well_shaped a ->
            (if flip (params self)
             then flip_columns
                    (if flip (params self) then flip_columns a else a)
             else (if flip (params self) then flip_columns a else a)) = a).
  { intros a Ha. destruct (flip (params self)); [|reflexivity].
    now apply flip_columns_involutive. }
  destruct r as [|p|p].
  - now apply Hflip.
  - destruct p as [[p|p|]|[p|p|]|]; try now apply Hflip.
    + (* 3 *)
      rewrite Hflip by apply well_shaped_build.
      now apply clockwise_after_counterclockwise.
    + (* 2 *)
      rewrite Hflip by apply well_shaped_build.
      now apply rotate_180_involutive.
    + (* 1 *)
      rewrite Hflip by apply well_shaped_build.
      now apply counterclockwise_after_clockwise.
  - now apply Hflip.
Qed.

Lemma rotate_round_trip_witness :
  well_shaped Example.scan /\
  rotate Example.turned (rotate Example.turned Example.scan false) true
  = Example.scan.
Proof.
  assert (Hs : well_shaped Example.scan).
  { split; [reflexivity | repeat constructor]. }
  split; [exact Hs | exact (rotate_round_trip Example.turned Example.scan Hs)].
Defined.

(** ** Exposure *)

Lemma map_fixes {A : Type} (f : A -> A) (l : list A) :
  (forall x, In x l -> f x = x) -> map f l = l.
Proof.
  induction l as [|x l IH]; intros Hf; simpl; [reflexivity|].
  rewrite Hf by now left. rewrite IH; [reflexivity|].
  intros y Hy. apply Hf. now right.
Qed.









(** ** Film-type pipelines *)

(** C7.  COLOR_NEGATIVE equals inversion followed by the SLIDE pipeline:
    for every input buffer, [colour_negative_processing(img)] is
    [slide_processing(65535 - img)], result and assignments to [self]
    alike, and [slide_processing] is the chain [hist_EQ], multiplicative
    white balance ([wb_mode[1]] is [wb_adjust_coeff]), [exposure],
    [sat_adjust], clip to [0, 65535]. *)
Theorem colour_negative_is_inverted_slide {E : Extern}
  (cp : class_parameters) (img : image) (self : photo) :
  colour_negative_processing cp img self
  = slide_processing cp (elementwise (fun v => 65535 - v) img) self
  /\ nth 1 [wb_adjust cp; wb_adjust_coeff cp; wb_adjust_gamma cp] mret
     = wb_adjust_coeff cp
  /\ slide_processing cp img self = spec_SLIDE cp img self
  /\ colour_negative_processing cp img self = spec_COLOR_NEGATIVE cp img self.
Proof.
  unfold colour_negative_processing, spec_COLOR_NEGATIVE, invert.
  assert (Hslide : forall i s, slide_processing cp i s = spec_SLIDE cp i s).
  { intros i s. unfold slide_processing, spec_SLIDE, clip_uint16.
    reflexivity. }
  split; [reflexivity|].
  split; [reflexivity|].
  split; apply Hslide.
Qed.

(** ** Dust detection *)

Lemma In_insert_by {A : Type} (key : A -> R) (x y : A) (l : list A) :
  In y (insert_by key x l) <-> y = x \/ In y l.
Proof.
  induction l as [|z l IH]; simpl.
  - intuition.
  - destruct (Rlt_dec (key x) (key z)); simpl; [intuition|].
    rewrite IH. intuition.
Qed.

Lemma In_sorted_by {A : Type} (key : A -> R) (y : A) (l : list A) :
  In y (sorted_by key l) <-> In y l.
Proof.
  unfold sorted_by.
  assert (Hacc : forall acc,
            In y (fold_left (fun acc x => insert_by key x acc) l acc)
            <-> In y l \/ In y acc).
  { induction l as [|x l IH]; intros acc; simpl.
    - intuition.
    - rewrite IH, In_insert_by. intuition. }
  rewrite Hacc. simpl. intuition.
Qed.

Lemma In_smallest_of {E : Extern} (bound : R) (contours : list contour)
  (c : contour) :
  In c (smallest_of bound contours)
  <-> In c contours /\ cv2_contourArea c < bound.
Proof.
  unfold smallest_of. rewrite filter_In, In_sorted_by.
  destruct (Rlt_dec (cv2_contourArea c) bound); intuition discriminate.
Qed.

(** C8.  Dust-mask component filtering: the contours of the threshold image
    (after its dilation and erosion) that [find_dust] draws into the mask it
    returns are those whose area is strictly below
    [((x + y) / 2 / 800) ^ 2 * max_dust_area]; every contour whose area is
    at or above the bound is left out.  Of one small blob below the bound
    and one large region above it, only the small one is drawn. *)
Theorem dust_mask_component_filter {E : Extern} (cp : class_parameters)
  (self : photo) (img imgray : image) (kernel_size : Z)
  (contours : list contour) :
  dust_contours cp img = Ok (imgray, kernel_size, contours) ->
  let bound :=
    ((INR (shape1 img) + INR (shape0 img)) / 2 / 800) ^ 2 * max_dust_area cp in
  find_dust cp self img
  = (dust_mask <-
       cv2_drawContours_filled (elementwise (fun _ => 0) imgray)
         (smallest_of bound contours) 255 ;;
     cv2_dilate dust_mask kernel_size 1)%result
  /\ (forall c, In c (smallest_of bound contours)
                <-> In c contours /\ cv2_contourArea c < bound)
  /\ (forall small large,
        contours = [large; small] \/ contours = [small; large] ->
        cv2_contourArea small < bound ->
        bound <= cv2_contourArea large ->
        smallest_of bound contours = [small]).
Proof.
  intros Hfound bound. split; [|split].
  - unfold find_dust. rewrite Hfound. reflexivity.
  - intros c. apply In_smallest_of.
  - intros small large Hcs Hsmall Hlarge.
    unfold smallest_of, sorted_by.
    assert (Hlt : cv2_contourArea small < cv2_contourArea large) by lra.
    destruct Hcs as [-> | ->]; simpl;
      repeat match goal with
             | |- context [Rlt_dec ?a ?b] => destruct (Rlt_dec a b); try lra
             end; simpl;
      repeat match goal with
             | |- context [Rlt_dec ?a ?b] => destruct (Rlt_dec a b); try lra
             end; reflexivity.
Qed.

Lemma dust_mask_component_filter_witness :
  let E := Example.libraries [Example.blot; Example.speck] Example.tilted
             imread_none in
  smallest_of (E := E) (((INR 2 + INR 2) / 2 / 800) ^ 2 * 400000)
    [Example.blot; Example.speck]
  = [Example.speck].
Proof.
  intros E.
  assert (Hf : exists imgray k,
             dust_contours (E := E) Example.coarse Example.scan
             = Ok (imgray, k, [Example.blot; Example.speck])).
  { eexists. eexists. reflexivity. }
  destruct Hf as (imgray & k & Hf).
  destruct (dust_mask_component_filter (E := E) Example.coarse Example.fresh
              Example.scan imgray k _ Hf) as (_ & _ & Hone).
  apply (Hone Example.speck Example.blot).
  - left. reflexivity.
  - simpl. lra.
  - simpl. lra.
Defined.

(** ** Histogram equalisation *)





(** ** Crop estimation *)

(** C6.  No-contour fallback is not an error: for every input buffer on
    which contour detection finds an empty contour list,
    [find_optimal_crop] returns the threshold image with a [None] rectangle
    and a [None] contour, and [crop] with a [None] rectangle returns the
    original buffer unchanged. *)
Theorem no_contour_fallback {E : Extern} (cp : class_parameters)
  (self : photo) (raw thresh img : image) (include_EQ_ignore : bool) :
  RAW_IMG self = Some (Some raw) ->
  get_threshold self raw = Ok thresh ->
  cv2_findContours thresh RETR_LIST = Ok [] ->
  find_optimal_crop self = Ok (thresh, None, None)
  /\ crop cp self img None include_EQ_ignore = Ok img.
Proof.
  intros Hraw Hthresh Hnone. split; [|reflexivity].
  unfold find_optimal_crop, RAW_IMG_array. rewrite Hraw. simpl.
  rewrite Hthresh. simpl. rewrite Hnone. reflexivity.
Qed.

Lemma no_contour_fallback_witness :
  let E := Example.libraries [] Example.tilted imread_none in
  find_optimal_crop (E := E) Example.loaded = Ok (Example.scan, None, None)
  /\ crop (E := E) default_parameters Example.loaded Example.scan None false
     = Ok Example.scan.
Proof.
  intros E.
  exact (no_contour_fallback (E := E) default_parameters Example.loaded
           Example.scan Example.scan Example.scan false
           eq_refl eq_refl eq_refl).
Defined.







(** ** Assignments of the pipeline *)

Section Framing.

Context {X : Type} (f : photo -> X).

Lemma keeps_mret {A : Type} (a : A) : keeps f (mret a).
Proof. intros self. reflexivity. Qed.

Lemma keeps_eval {A : Type} (g : photo -> result A) : keeps f (eval g).
Proof. intros self. reflexivity. Qed.

Lemma keeps_assign (g : photo -> photo) :
  (forall self, f (g self) = f self) -> keeps f (assign g).
Proof. intros Hg self. apply Hg. Qed.

Lemma keeps_mbind {A B : Type} (m : M A) (k : A -> M B) :
  keeps f m -> (forall a, keeps f (k a)) -> keeps f (mbind m k).
Proof.
  intros Hm Hk self. unfold mbind.
  specialize (Hm self). destruct (m self) as [[a|e] self1]; simpl in *.
  - now rewrite Hk.
  - assumption.
Qed.

End Framing.

Lemma visible_frame : pipeline_frame visible.
Proof. split; intros v []; reflexivity. Qed.

Lemma active_processes_frame : pipeline_frame active_processes.
Proof. split; intros v []; reflexivity. Qed.

Ltac frame_assign Hf :=
  apply keeps_assign; intros ?;
  first [ apply (frame_params _ Hf) | apply (frame_proxy _ Hf)
        | apply (frame_FileReadError _ Hf) | apply (frame_pick_wb _ Hf)
        | apply (frame_colour_desc _ Hf) | apply (frame_RAW_IMG _ Hf)
        | apply (frame_proxy_RAW_IMG _ Hf) | apply (frame_thresh _ Hf)
        | apply (frame_rect _ Hf) | apply (frame_largest_contour _ Hf)
        | apply (frame_memory_alloc _ Hf) ].

Ltac frame_step Hf :=
  match goal with
  | |- keeps _ (mbind _ _) => apply keeps_mbind; [|intros ?]
  | |- keeps _ (mret _) => apply keeps_mret
  | |- keeps _ (eval _) => apply keeps_eval
  | |- keeps _ (assign _) => frame_assign Hf
  | |- keeps _ (if ?b then _ else _) => destruct b
  | |- keeps _ (match ?x with _ => _ end) => destruct x
  end.

Ltac frame Hf := repeat (frame_step Hf).

Section PipelineFrame.

Context {E : Extern} (cp : class_parameters).
Context {X : Type} (f : photo -> X) (Hf : pipeline_frame f).

Lemma load_keeps (full_res : bool) : keeps f (load full_res).
Proof. unfold load. frame Hf. Qed.

Lemma wb_adjust_keeps (img : image) : keeps f (wb_adjust cp img).
Proof. unfold wb_adjust. frame Hf. Qed.

Lemma wb_adjust_coeff_keeps (img : image) : keeps f (wb_adjust_coeff cp img).
Proof. unfold wb_adjust_coeff. frame Hf. Qed.

Lemma wb_adjust_gamma_keeps (img : image) : keeps f (wb_adjust_gamma cp img).
Proof. unfold wb_adjust_gamma. frame Hf. Qed.

Lemma slide_processing_keeps (img : image) : keeps f (slide_processing cp img).
Proof.
  unfold slide_processing. simpl nth.
  apply keeps_mbind; [apply keeps_eval | intros toned].
  apply keeps_mbind; [apply wb_adjust_coeff_keeps | intros balanced].
  frame Hf.
Qed.

Lemma film_processing_keeps (film_type : Z) (img : image) :
  keeps f
    match film_type with
    | 0%Z => bw_negative_processing cp img
    | 1%Z => colour_negative_processing cp img
    | 2%Z => slide_processing cp img
    | 3%Z => crop_only img
    | _ => mret img
    end.
Proof.
  assert (Hbw : keeps f (bw_negative_processing cp img)).
  { unfold bw_negative_processing. frame Hf. }
  assert (Hcn : keeps f (colour_negative_processing cp img)).
  { apply slide_processing_keeps. }
  pose proof (slide_processing_keeps img) as Hsl.
  assert (Hco : keeps f (crop_only img)) by apply keeps_mret.
  assert (Hno : keeps f (mret img)) by apply keeps_mret.
  destruct film_type as [|p|p]; try assumption.
  destruct p as [[p|p|]|[p|p|]|]; assumption.
Qed.

Lemma process_pipeline_keeps (full_res skip_crop : bool) :
  keeps f (process_pipeline cp full_res skip_crop).
Proof.
  unfold process_pipeline.
  apply keeps_mbind; [apply keeps_eval | intros self0].
  apply keeps_mbind.
  { destruct (negb skip_crop || negb (hasattr (thresh self0)));
      [|apply keeps_mret].
    apply keeps_mbind; [apply keeps_eval | intros [[t r] lc]].
    frame Hf. }
  intros _.
  apply keeps_mbind; [apply keeps_eval | intros img].
  apply keeps_mbind; [apply keeps_eval | intros dust].
  apply keeps_mbind; [apply keeps_eval | intros self1].
  apply keeps_mbind; [apply film_processing_keeps | intros img'].
  apply keeps_mbind; [apply keeps_eval | intros img''].
  apply keeps_mret.
Qed.

End PipelineFrame.

(** ** The run of [process] *)

Section Process.

Context {E : Extern} (cp : class_parameters).

Lemma process_unfold (full_res recent_only skip_crop : bool) (self : photo) :
  process cp full_res recent_only skip_crop self
  = match process_start self with
    | (Ok true, s1) =>
        match process_pipeline cp full_res skip_crop s1 with
        | (Ok (img, dust_mask), s2) =>
            process_finish recent_only img dust_mask s2
        | (Raise e, s2) => (Raise e, s2)
        end
    | (Ok false, s1) => (Ok tt, s1)
    | (Raise e, s1) => (Raise e, s1)
    end.
Proof.
  unfold process, mbind.
  destruct (process_start self) as [[[|]|e] s1]; try reflexivity.
  destruct (process_pipeline cp full_res skip_crop s1) as [[[img dm]|e] s2];
    reflexivity.
Qed.

(** The end of a run: it never raises; it takes one from the counter, and
    on the latest-only check it either leaves the photo at that or commits
    the three attributes of the result. *)
Lemma process_finish_spec (recent_only : bool) (img dust_mask : image)
  (self : photo) :
  let counted :=
    set_active_processes (active_processes self - 1)%Z self in
  process_finish recent_only img dust_mask self
  = (Ok tt,
     if recent_only && (0 <? active_processes self - 1)%Z then counted
     else set_processed true
            (set_dust_mask (Some dust_mask) (set_IMG (Some img) counted))).
Proof.
  destruct self. unfold process_finish, mbind, assign, eval, mret. simpl.
  destruct recent_only; simpl; [|reflexivity].
  destruct (0 <? _)%Z; reflexivity.
Qed.

Lemma process_finish_visible (recent_only : bool) (img dust_mask : image)
  (self : photo) :
  visible (snd (process_finish recent_only img dust_mask self))
  = if recent_only && (0 <? active_processes self - 1)%Z then visible self
    else (Some img, Some dust_mask, true).
Proof.
  rewrite process_finish_spec. simpl.
  destruct (recent_only && (0 <? active_processes self - 1)%Z);
    destruct self; reflexivity.
Qed.

Lemma process_finish_counter (recent_only : bool) (img dust_mask : image)
  (self : photo) :
  active_processes (snd (process_finish recent_only img dust_mask self))
  = (active_processes self - 1)%Z.
Proof.
  rewrite process_finish_spec. simpl.
  destruct (recent_only && (0 <? active_processes self - 1)%Z);
    destruct self; reflexivity.
Qed.

(** The start of a run: the load (when there is no [RAW_IMG] attribute),
    then the gate. *)
Lemma process_start_cases (self s1 : photo) (r : result bool) :
  process_start self = (r, s1) ->
  visible s1 = visible self
  /\ (hasattr (RAW_IMG self) = true ->
      s1 = (if FileReadError self then self
            else set_active_processes (active_processes self + 1)%Z self))
  /\ match r with
     | Ok true =>
         FileReadError s1 = false
         /\ active_processes s1 = (active_processes self + 1)%Z
     | Ok false =>
         FileReadError s1 = true
         /\ active_processes s1 = active_processes self
     | Raise _ => active_processes s1 = active_processes self
     end.
Proof.
  unfold process_start, mbind at 1, eval at 1. simpl.
  set (m := if negb (hasattr (RAW_IMG self)) then load false else mret tt).
  assert (Hv : keeps visible m).
  { unfold m. destruct (negb _);
      [apply (load_keeps _ visible_frame) | apply keeps_mret]. }
  assert (Ha : keeps active_processes m).
  { unfold m. destruct (negb _);
      [apply (load_keeps _ active_processes_frame) | apply keeps_mret]. }
  assert (Hr : hasattr (RAW_IMG self) = true -> m self = (Ok tt, self)).
  { intros Hh. unfold m. now rewrite Hh. }
  specialize (Hv self). specialize (Ha self).
  unfold mbind. destruct (m self) as [[[]|e] s0]; simpl in *.
  - unfold eval. simpl. destruct (FileReadError s0) eqn:HF.
    + unfold mret. intros [= <- <-].
      repeat split; try assumption.
      intros Hh. specialize (Hr Hh). injection Hr as ->. now rewrite HF.
    + unfold assign, mret. simpl. intros [= <- <-].
      repeat split.
      * rewrite <- Hv. now destruct s0.
      * intros Hh. specialize (Hr Hh). injection Hr as ->. now rewrite HF.
      * destruct s0. simpl in *. assumption.
      * rewrite <- Ha. now destruct s0.
  - intros [= <- <-]. repeat split; try assumption.
    intros Hh. specialize (Hr Hh). discriminate.
Qed.

Lemma step_run_visible (r : run) (self : photo) :
  match r with
  | computed c img dust_mask =>
      if recent_only c && (0 <? active_processes self - 1)%Z
      then visible (snd (step_run cp r self)) = visible self
      else visible (snd (step_run cp r self)) = (Some img, Some dust_mask, true)
  | _ => visible (snd (step_run cp r self)) = visible self
  end.
Proof.
  destruct r as [c|c|c img dm| |counted e]; simpl; try reflexivity.
  - destruct (process_start self) as [r s1] eqn:Hs.
    destruct (process_start_cases self s1 r Hs) as (Hv & _).
    destruct r as [[|]|e]; exact Hv.
  - pose proof (process_pipeline_keeps cp visible visible_frame
                  (full_res c) (skip_crop c) self) as Hv.
    destruct (process_pipeline cp (full_res c) (skip_crop c) self)
      as [[[img dm]|e] s2]; exact Hv.
  - pose proof (process_finish_visible (recent_only c) img dm self) as Hv.
    destruct (process_finish (recent_only c) img dm self) as [[[]|e] s3];
      simpl in *;
      destruct (recent_only c && (0 <? active_processes self - 1)%Z);
      exact Hv.
Qed.

End Process.




(** The counter counts the runs in progress: along every schedule,
    [active_processes] moves with the number of runs that are between lines
    274 and 309 or were ended there by an exception. *)
Lemma step_run_counter {E : Extern} (cp : class_parameters) (r : run)
  (self : photo) :
  (active_processes (snd (step_run cp r self))
   - counted_run (fst (step_run cp r self))
   = active_processes self - counted_run r)%Z.
Proof.
  destruct r as [c|c|c img dm| |counted e]; simpl; try reflexivity.
  - destruct (process_start self) as [r s1] eqn:Hs.
    destruct (process_start_cases self s1 r Hs) as (_ & _ & Hr).
    destruct r as [[|]|e]; simpl; lia.
  - pose proof (process_pipeline_keeps cp active_processes
                  active_processes_frame (full_res c) (skip_crop c) self)
      as Hkeep.
    destruct (process_pipeline cp (full_res c) (skip_crop c) self)
      as [[[img dm]|e] s2]; simpl in *; lia.
  - pose proof (process_finish_counter (recent_only c) img dm self) as Hdec.
    rewrite process_finish_spec in *. simpl in *. lia.
Qed.

Lemma step_pool_counter {E : Extern} (cp : class_parameters) (n : nat)
  (pool : list run) (self : photo) :
  (active_processes (snd (step_pool cp n pool self))
   - counted_runs (fst (step_pool cp n pool self))
   = active_processes self - counted_runs pool)%Z.
Proof.
  revert n. induction pool as [|r pool IH]; intros n.
  - destruct n; reflexivity.
  - destruct n as [|n]; simpl.
    + pose proof (step_run_counter cp r self) as Hr.
      destruct (step_run cp r self) as [r' s']. unfold counted_runs in *.
      simpl in *. lia.
    + specialize (IH n).
      destruct (step_pool cp n pool self) as [pool' s'].
      unfold counted_runs in *. simpl in *. lia.
Qed.

Lemma run_schedule_counter {E : Extern} (cp : class_parameters)
  (schedule : list nat) (pool : list run) (self : photo) :
  (active_processes (snd (run_schedule cp schedule pool self))
   - counted_runs (fst (run_schedule cp schedule pool self))
   = active_processes self - counted_runs pool)%Z.
Proof.
  revert pool self. induction schedule as [|n schedule IH]; intros pool self.
  - reflexivity.
  - simpl. pose proof (step_pool_counter cp n pool self) as Hn.
    destruct (step_pool cp n pool self) as [pool' s']. simpl in Hn.
    rewrite IH. exact Hn.
Qed.

(** Two overlapping latest-only runs: the first to finish finds the other
    still counted and drops its result; the last one commits. *)
Lemma overlapping_runs_last_wins :
  let E := Example.libraries [] Example.tilted imread_none in
  let c := {| full_res := false; recent_only := true; skip_crop := false |} in
  let pool := [called c; called c] in
  visible (snd (run_schedule (E := E) default_parameters
                  [0; 1; 0; 0]%nat pool Example.turned))
  = (None, None, false)
  /\ fst (run_schedule (E := E) default_parameters
            [0; 1; 0; 0; 1; 1]%nat pool Example.turned)
     = [returned; returned]
  /\ visible (snd (run_schedule (E := E) default_parameters
                     [0; 1; 0; 0; 1; 1]%nat pool Example.turned))
     = (Some Example.scan, Some (elementwise (fun _ => 0) Example.scan), true).
Proof.
  intros E c pool. split; [reflexivity|]. split; reflexivity.
Qed.

(** The example of an unreadable photo is what a failed [load] leaves. *)
Lemma unreadable_after_load :
  let E := Example.libraries [] Example.tilted imread_none in
  load (E := E) false Example.fresh = (Ok tt, Example.unreadable).
Proof. reflexivity. Qed.

(** ** The unreadable photo *)

(** C9.  Unreadable-photo gating, as the methods do it.  Once
    [FileReadError] is set: [process] returns
    without modifying any state, for every combination of arguments, when
    the photo has its [RAW_IMG] attribute (a failed read leaves [None] in
    it); without the attribute [process] first loads the file again, and
    returns at that when the flag is then set.  [get_IMG] returns nothing
    for every output and form.  [export] is gated by the [IMG] attribute,
    not by the flag: it writes nothing for a photo that has no [IMG].
    [save_settings] does not read the flag: it writes the parameters of
    the photo all the same. *)
Theorem unreadable_photo_gating {E : Extern} (cp : class_parameters)
  (xp : exif_parameters) (self : photo) :
  FileReadError self = true ->
  (hasattr (RAW_IMG self) = true ->
   forall full_res recent_only skip_crop,
     process cp full_res recent_only skip_crop self = (Ok tt, self))
  /\ (hasattr (RAW_IMG self) = false ->
      forall s1, load false self = (Ok tt, s1) -> FileReadError s1 = true ->
      forall full_res recent_only skip_crop,
        process cp full_res recent_only skip_crop self = (Ok tt, s1))
  /\ (forall output as_array, get_IMG cp self output as_array = Ok None)
  /\ (hasattr (IMG self) = false ->
      forall filename, export cp xp filename self = (Ok None, self))
  /\ (forall flag,
        save_settings (set_FileReadError flag self) = save_settings self
        /\ exists directory,
             save_settings self = npy_file directory (params self)).
Proof.
  intros Hflag. repeat split.
  - intros Hraw full_res recent_only skip_crop.
    rewrite process_unfold. unfold process_start, mbind, eval, mret.
    simpl. rewrite Hraw. simpl. now rewrite Hflag.
  - intros Hraw s1 Hload Hflag1 full_res recent_only skip_crop.
    rewrite process_unfold. unfold process_start, mbind, eval, mret.
    simpl. rewrite Hraw. simpl. rewrite Hload. now rewrite Hflag1.
  - intros output as_array. unfold get_IMG. now rewrite Hflag.
  - intros Himg filename. unfold export, mbind, eval, mret. simpl.
    now rewrite Himg.
  - destruct self. reflexivity.
  - eexists. reflexivity.
Qed.

Lemma unreadable_photo_gating_witness :
  let E := Example.libraries [] Example.tilted imread_none in
  FileReadError Example.unreadable = true
  /\ process (E := E) default_parameters false true false Example.unreadable
     = (Ok tt, Example.unreadable)
  /\ get_IMG (E := E) default_parameters Example.unreadable output_default
       false
     = Ok None.
Proof.
  intros E.
  destruct (unreadable_photo_gating (E := E) default_parameters
              default_exif_parameters Example.unreadable eq_refl)
    as (Hprocess & _ & Hget & _).
  split; [reflexivity|]. split.
  - apply Hprocess. reflexivity.
  - apply Hget.
Defined.

(** C9.  Not every operation is a no-op once [FileReadError] is set.  On a
    photo whose load has failed, [save_settings] writes its file;
    [get_base_colour] raises on the absent pixel data; and after
    [clear_memory], once the file can be read, [process] loads it and
    commits a result. *)
Lemma unreadable_photo_counterexample :
  let E := Example.libraries [] Example.tilted
             (imread_array Example.scan false) in
  let cleared := snd (clear_memory Example.unreadable) in
  FileReadError Example.unreadable = true
  /\ save_settings Example.unreadable
     = npy_file "config/scan.npy" (params Example.unreadable)
  /\ get_base_colour (E := E) default_parameters (1 / 2) (1 / 2)
       Example.unreadable
     = (Raise TypeError, Example.unreadable)
  /\ FileReadError cleared = true
  /\ IMG cleared = None
  /\ exists self',
       process (E := E) default_parameters false false false cleared
       = (Ok tt, self')
       /\ hasattr (IMG self') = true
       /\ processed self' = true
       /\ FileReadError self' = false.
Proof.
  intros E cleared.
  do 5 (split; [reflexivity|]).
  eexists. do 3 (split; [reflexivity|]). reflexivity.
Defined.

(** * Further properties of the methods *)

(** ** Orientation, continued *)

(** X1.  The other round trip of [rotate]: undoing first and applying the
    flip and rotation afterwards also returns the original buffer, for
    every rotation and both flip settings.  This is what brings a picker
    mask, drawn in the orientation of the preview, back onto the buffer. *)
Theorem rotate_undo_then_forward {A : Type} `{Fill A} (self : photo)
  (img : ndarray A) :
  well_shaped img -> rotate self (rotate self img true) false = img.
Proof.
  intros Himg. unfold rotate.
  set (r := (rotation (params self) mod 4)%Z).
  destruct (flip (params self)).
  - assert (Hf : well_shaped (flip_columns img)) by apply well_shaped_build.
    destruct r as [|p|p];
      [ | destruct p as [[p|p|]|[p|p|]|] | ];
      rewrite ?clockwise_after_counterclockwise,
              ?counterclockwise_after_clockwise,
              ?rotate_180_involutive by assumption;
      now apply flip_columns_involutive.
  - destruct r as [|p|p];
      [ | destruct p as [[p|p|]|[p|p|]|] | ];
      rewrite ?clockwise_after_counterclockwise,
              ?counterclockwise_after_clockwise,
              ?rotate_180_involutive by assumption;
      reflexivity.
Qed.

Lemma rotate_undo_then_forward_witness :
  well_shaped Example.scan /\
  rotate Example.turned (rotate Example.turned Example.scan true) false
  = Example.scan.
Proof.
  assert (Hs : well_shaped Example.scan).
  { split; [reflexivity | repeat constructor]. }
  split;
    [exact Hs
    | exact (rotate_undo_then_forward Example.turned Example.scan Hs)].
Defined.

Lemma odd_mod_4 (z : Z) : Z.odd (z mod 4) = Z.odd z.
Proof.
  rewrite (Z.div_mod z 4) at 2 by lia.
  rewrite Z.odd_add, Z.odd_mul. reflexivity.
Qed.

(** X2.  The shape of a rotated buffer: [rotate] swaps the two dimensions
    exactly when the rotation is odd, in forward and in undo mode alike,
    and the rows of its result agree with that shape. *)
Theorem rotate_shape {A : Type} `{Fill A} (self : photo) (img : ndarray A)
  (undo : bool) :
  well_shaped img ->
  let out := rotate self img undo in
  well_shaped out
  /\ (shape0 out, shape1 out)
     = if Z.odd (rotation (params self))
       then (shape1 img, shape0 img)
       else (shape0 img, shape1 img).
Proof.
  intros Himg out. subst out.
  rewrite <- odd_mod_4. unfold rotate.
  assert (Hr : (0 <= rotation (params self) mod 4 < 4)%Z)
    by (apply Z.mod_pos_bound; lia).
  set (r := (rotation (params self) mod 4)%Z) in *.
  destruct undo, (flip (params self));
    (destruct r as [|p|p];
     [ | destruct p as [[p|p|]|[p|p|]|]; try lia | lia ]);
    simpl; split;
    first [ reflexivity | assumption | apply well_shaped_build ].
Qed.

Lemma rotate_shape_witness :
  well_shaped Sample.strip /\
  well_shaped (rotate Example.turned Sample.strip false)
  /\ (shape0 (rotate Example.turned Sample.strip false),
      shape1 (rotate Example.turned Sample.strip false))
     = (2%nat, 1%nat).
Proof.
  assert (Hs : well_shaped Sample.strip).
  { split; [reflexivity | repeat constructor]. }
  split; [exact Hs|].
  exact (rotate_shape Example.turned Sample.strip false Hs).
Defined.

(** ** Boxes *)

Lemma py_int_0 : py_int 0 = 0%Z.
Proof.
  unfold py_int. destruct (Rle_dec 0 0) as [_|Hn]; [|lra].
  change 0 with (INR 0). apply Int_part_INR.
Qed.

Lemma first_match_le (topleft : Z * Z) (b : box_points) :
  (first_match topleft b <= length b)%nat.
Proof.
  induction b as [|p b IH]; simpl; [lia|].
  destruct ((fst p =? fst topleft)%Z || (snd p =? snd topleft)%Z); lia.
Qed.

Lemma roll_roll_back {A : Type} (k : nat) (l : list A) :
  (k <= length l)%nat -> roll k (roll_back k l) = l.
Proof.
  intros Hk. unfold roll, roll_back.
  rewrite length_app, length_skipn, length_firstn.
  replace (length l - k + Nat.min k (length l) - k)%nat
    with (length (skipn k l)) by (rewrite length_skipn; lia).
  rewrite skipn_app, firstn_app, skipn_all, firstn_all, Nat.sub_diag.
  simpl. rewrite app_nil_r. apply firstn_skipn.
Qed.

Lemma zip_with_no_offset (l : box_points) :
  zip_with (fun p o => (fst p + fst o, snd p + snd o)%Z) l
    (map (fun _ => (0, 0)%Z) l)
  = l.
Proof.
  induction l as [|[a b] l IH]; simpl; [reflexivity|].
  rewrite IH. now rewrite !Z.add_0_r.
Qed.

Lemma to_int32_in_range (z : Z) : in_int32 z -> to_int32 z = z.
Proof.
  unfold in_int32, to_int32. intros Hz.
  rewrite Z.mod_small by lia. lia.
Qed.

(** X3.  [shrink_box] with [x = y = 0] returns the corners it was given, in
    the same order, whatever the tilt of the box: for every box of non-zero
    mean width whose coordinates are 32-bit integers. *)
Theorem shrink_box_by_nothing (box : box_points) :
  box_width box <> 0 ->
  Forall (fun p => in_int32 (fst p) /\ in_int32 (snd p)) box ->
  shrink_box box 0 0 = Ok box.
Proof.
  intros Hw Hrange. unfold shrink_box. cbv zeta.
  fold (box_width box).
  destruct (Req_dec_T (box_width box) 0) as [Hz|_]; [contradiction|].
  replace (0 / 100 * box_width box) with 0 by (unfold Rdiv; ring).
  match goal with
  | |- context [0 / 100 * ?h] =>
      replace (0 / 100 * h) with 0 by (unfold Rdiv; ring)
  end.
  set (index := first_match (topleft_of box) box).
  match goal with
  | |- context [map ?F (roll_back index box)] =>
      assert (HF : forall p, F p = (0, 0)%Z)
  end.
  { intros p. unfold skew_point. rewrite Rmult_0_l, py_int_0.
    repeat match goal with
           | |- context [Rlt_dec ?a ?b] => destruct (Rlt_dec a b)
           end; reflexivity. }
  rewrite (map_ext _ (fun _ => (0, 0)%Z) HF), zip_with_no_offset.
  rewrite roll_roll_back by apply first_match_le.
  apply f_equal. apply map_fixes. intros [a b] Hp.
  rewrite Forall_forall in Hrange. destruct (Hrange _ Hp) as [Ha Hb].
  simpl in *. now rewrite !to_int32_in_range.
Qed.

Lemma shrink_box_by_nothing_witness :
  shrink_box Sample.upright 0 0 = Ok Sample.upright.
Proof.
  apply shrink_box_by_nothing.
  - unfold box_width, Sample.upright. simpl. lra.
  - unfold Sample.upright, in_int32.
    repeat constructor; simpl; lia.
Defined.

(** ** Exposure, continued *)





(** ** White balance *)

Lemma broadcast_fixes (f : R -> R -> R) (img : image) (v : list R) :
  (forall px, In px (ravel img) -> zip_with f px v = px) ->
  broadcast f img v = img.
Proof.
  intros Hpx. destruct img as [h w rows].
  unfold broadcast, map_items. simpl. apply f_equal.
  apply map_fixes. intros row Hrow.
  apply map_fixes. intros px Hin.
  apply Hpx. unfold ravel. simpl. apply in_concat. now exists row.
Qed.

Lemma three_channels (px : pixel) :
  length px = 3%nat -> exists b g r, px = [b; g; r].
Proof.
  destruct px as [|b [|g [|r [|x px]]]]; try discriminate.
  intros _. now exists b, g, r.
Qed.

(** X5.  The multiplicative white balance is neutral at [temp = tint = 0]:
    with the picker not armed, [wb_adjust_coeff] returns every BGR buffer
    unchanged and assigns nothing to [self]. *)
Theorem wb_adjust_coeff_neutral {E : Extern} (cp : class_parameters)
  (self : photo) (img : image) :
  pick_wb self = false ->
  temp (params self) = 0 ->
  tint (params self) = 0 ->
  Forall (fun px => length px = 3%nat) (ravel img) ->
  wb_adjust_coeff cp img self = (Ok img, self).
Proof.
  intros Hpick Htemp Htint Hbgr.
  unfold wb_adjust_coeff, mbind, eval, mret. simpl.
  rewrite Hpick. simpl. rewrite Htemp, Htint.
  rewrite broadcast_fixes; [reflexivity|].
  intros px Hpx. rewrite Forall_forall in Hbgr.
  destruct (three_channels px (Hbgr px Hpx)) as (b & g & r & ->).
  simpl. repeat f_equal; field.
Qed.

Lemma wb_adjust_coeff_neutral_witness :
  let E := Example.libraries [] Example.tilted imread_none in
  wb_adjust_coeff (E := E) default_parameters Example.scan Example.turned
  = (Ok Example.scan, Example.turned).
Proof.
  intros E.
  apply (wb_adjust_coeff_neutral (E := E) default_parameters Example.turned
           Example.scan); try reflexivity.
  unfold ravel. simpl. repeat constructor.
Defined.

(** X6.  The additive white balance is neutral at [temp = tint = 0] as
    well: with the picker not armed, [wb_adjust] returns every BGR buffer
    unchanged and assigns nothing to [self]. *)
Theorem wb_adjust_neutral {E : Extern} (cp : class_parameters)
  (self : photo) (img : image) :
  pick_wb self = false ->
  temp (params self) = 0 ->
  tint (params self) = 0 ->
  Forall (fun px => length px = 3%nat) (ravel img) ->
  wb_adjust cp img self = (Ok img, self).
Proof.
  intros Hpick Htemp Htint Hbgr.
  unfold wb_adjust, mbind, eval, mret. simpl.
  rewrite Hpick. simpl. rewrite Htemp, Htint.
  rewrite broadcast_fixes; [reflexivity|].
  intros px Hpx. rewrite Forall_forall in Hbgr.
  destruct (three_channels px (Hbgr px Hpx)) as (b & g & r & ->).
  simpl. repeat f_equal; ring.
Qed.

Lemma wb_adjust_neutral_witness :
  let E := Example.libraries [] Example.tilted imread_none in
  wb_adjust (E := E) default_parameters Example.scan Example.turned
  = (Ok Example.scan, Example.turned).
Proof.
  intros E.
  apply (wb_adjust_neutral (E := E) default_parameters Example.turned
           Example.scan); try reflexivity.
  unfold ravel. simpl. repeat constructor.
Defined.



Lemma picker_mean_ignores_flag {E : Extern} (cp : class_parameters)
  (self : photo) (img : image) (flag : bool) :
  picker_mean cp (set_pick_wb flag self) img = picker_mean cp self img.
Proof. destruct self. reflexivity. Qed.

Lemma clamp100_bounds (v : R) : - 100 <= clamp100 v <= 100.
Proof.
  unfold clamp100. split.
  - apply Rmax_r.
  - apply Rmax_lub; [apply Rmin_r | lra].
Qed.

(** X8.  The white balance pick of [wb_adjust_coeff] is a one-shot
    measurement with clamped results: when the picker is armed and the mean
    blue and red of the picked region are not 0 (nor is
    [B * (G + R) + R * G]), the method returns, the flag [pick_wb] is
    cleared, and the [temp] and [tint] it has stored lie in [-100, 100]. *)
Theorem wb_pick_is_clamped {E : Extern} (cp : class_parameters)
  (self : photo) (img : image) (B G R_ a : R) :
  pick_wb self = true ->
  picker_mean cp self img = Ok (B, G, R_, a) ->
  B <> 0 -> R_ <> 0 -> B * (G + R_) + R_ * G <> 0 ->
  exists out self',
    wb_adjust_coeff cp img self = (Ok out, self')
    /\ pick_wb self' = false
    /\ - 100 <= temp (params self') <= 100
    /\ - 100 <= tint (params self') <= 100
    /\ tint (params self')
       = clamp100 ((G / B + G / R_ - 2)
                   / ((B * (G + R_) + R_ * G) / (B * R_)) * 200).
Proof.
  intros Hpick Hmean HB HR Hd.
  assert (HBR : B * R_ <> 0) by now apply Rmult_integral_contrapositive.
  assert (Hq : (B * (G + R_) + R_ * G) / (B * R_) <> 0).
  { unfold Rdiv. apply Rmult_integral_contrapositive. split; [assumption|].
    now apply Rinv_neq_0_compat. }
  unfold wb_adjust_coeff, mbind, eval, assign, mret. simpl.
  rewrite Hpick. simpl.
  rewrite picker_mean_ignores_flag, Hmean. simpl.
  unfold py_truediv.
  destruct (Req_dec_T B 0) as [|_]; [contradiction|].
  destruct (Req_dec_T R_ 0) as [|_]; [contradiction|]. simpl.
  destruct (Req_dec_T (B * R_) 0) as [|_]; [contradiction|]. simpl.
  destruct (Req_dec_T ((B * (G + R_) + R_ * G) / (B * R_)) 0) as [|_];
    [contradiction|]. simpl.
  destruct (Req_dec_T R_ 0) as [|_]; [contradiction|]. simpl.
  eexists. eexists. split; [reflexivity|].
  destruct self as [p]. destruct p. simpl.
  repeat split; try apply clamp100_bounds.
Qed.

Lemma wb_pick_is_clamped_witness :
  let E := Sample.libraries_with_mean (100, 100, 100, 0) in
  exists out self',
    wb_adjust_coeff (E := E) default_parameters Example.scan Sample.armed
    = (Ok out, self')
    /\ pick_wb self' = false
    /\ - 100 <= temp (params self') <= 100
    /\ - 100 <= tint (params self') <= 100.
Proof.
  intros E.
  destruct (wb_pick_is_clamped (E := E) default_parameters Sample.armed
              Example.scan 100 100 100 0 eq_refl eq_refl)
    as (out & self' & Hrun & Hflag & Htemp & Htint & _); try lra.
  exists out, self'. repeat split; tauto.
Defined.

(** X9.  A pick on a region with no blue or no red (or with
    [B * (G + R) + R * G = 0]) makes [wb_adjust_coeff] raise
    [ZeroDivisionError]: the flag [pick_wb] is already cleared, so the pick
    is not tried again, and [temp] and [tint] keep their values. *)
Theorem wb_pick_zero_division {E : Extern} (cp : class_parameters)
  (self : photo) (img : image) (B G R_ a : R) :
  pick_wb self = true ->
  picker_mean cp self img = Ok (B, G, R_, a) ->
  B = 0 \/ R_ = 0 \/ B * (G + R_) + R_ * G = 0 ->
  wb_adjust_coeff cp img self
  = (Raise ZeroDivisionError, set_pick_wb false self).
Proof.
  intros Hpick Hmean Hzero.
  unfold wb_adjust_coeff, mbind, eval, assign, mret. simpl.
  rewrite Hpick. simpl.
  rewrite picker_mean_ignores_flag, Hmean. simpl.
  unfold py_truediv.
  destruct (Req_dec_T B 0) as [|HB]; [reflexivity|].
  destruct (Req_dec_T R_ 0) as [|HR]; [reflexivity|]. simpl.
  destruct (Req_dec_T (B * R_) 0) as [|HBR]; [reflexivity|]. simpl.
  destruct (Req_dec_T ((B * (G + R_) + R_ * G) / (B * R_)) 0) as [|Hq];
    [reflexivity|].
  exfalso. destruct Hzero as [H0 | [H0 | H0]]; try contradiction.
  apply Hq. rewrite H0. unfold Rdiv. ring.
Qed.

Lemma wb_pick_zero_division_witness :
  let E := Example.libraries [] Example.tilted imread_none in
  wb_adjust_coeff (E := E) default_parameters Example.scan Sample.armed
  = (Raise ZeroDivisionError, set_pick_wb false Sample.armed).
Proof.
  intros E.
  apply (wb_pick_zero_division (E := E) default_parameters Sample.armed
           Example.scan 0 0 0 0); try reflexivity.
  now left.
Defined.

(** ** Film-type pipelines, continued *)

Lemma mbind_Ok {A B : Type} (m : M A) (k : A -> M B) (self s' : photo)
  (b : B) :
  mbind m k self = (Ok b, s') ->
  exists a s1, m self = (Ok a, s1) /\ k a s1 = (Ok b, s').
Proof.
  unfold mbind. destruct (m self) as [[a|e] s1]; [|discriminate].
  intros Hk. now exists a, s1.
Qed.

Lemma py_int_16_bit (x : R) :
  0 <= x <= 65535 -> (0 <= py_int x <= 65535)%Z.
Proof.
  intros [Hlo Hhi]. unfold py_int.
  destruct (Rle_dec 0 x) as [_|Hn]; [|contradiction].
  destruct (base_Int_part x) as [Hle Hgt]. split.
  - assert (Hz : (- 1 < Int_part x)%Z) by (apply lt_IZR; lra). lia.
  - apply le_IZR. lra.
Qed.

Lemma np_clip_bounds (v lo hi : R) : lo <= hi -> lo <= np_clip v lo hi <= hi.
Proof.
  intros Hlh. unfold np_clip. split.
  - apply Rmin_glb; [assumption | apply Rmax_l].
  - apply Rmin_l.
Qed.

Lemma clip_uint16_samples (img : image) (px : pixel) (v : R) :
  In px (ravel (clip_uint16 img)) -> In v px ->
  exists z, v = IZR z /\ (0 <= z <= 65535)%Z.
Proof.
  unfold clip_uint16, elementwise, map_items, ravel. simpl.
  intros Hpx Hv. apply in_concat in Hpx. destruct Hpx as (row & Hrow & Hpx).
  apply in_map_iff in Hrow. destruct Hrow as (row0 & <- & _).
  apply in_map_iff in Hpx. destruct Hpx as (px0 & <- & _).
  apply in_map_iff in Hv. destruct Hv as (v0 & <- & _).
  eexists. split; [reflexivity|].
  apply py_int_16_bit. apply np_clip_bounds. lra.
Qed.

(** X10.  Every film-type pipeline that converts ends in the 16-bit range:
    each sample of the buffer that [bw_negative_processing],
    [slide_processing] or [colour_negative_processing] returns is an
    integer from 0 to 65535, whatever the sliders and the statistics. *)
Theorem film_output_is_16_bit {E : Extern} (cp : class_parameters)
  (img out : image) (self self' : photo) :
  bw_negative_processing cp img self = (Ok out, self')
  \/ slide_processing cp img self = (Ok out, self')
  \/ colour_negative_processing cp img self = (Ok out, self') ->
  forall px v, In px (ravel out) -> In v px ->
  exists z, v = IZR z /\ (0 <= z <= 65535)%Z.
Proof.
  assert (Hslide : forall i, slide_processing cp i self = (Ok out, self') ->
                   exists pre, out = clip_uint16 pre).
  { intros i Hrun. unfold slide_processing in Hrun.
    apply mbind_Ok in Hrun. destruct Hrun as (i1 & s1 & _ & Hrun).
    apply mbind_Ok in Hrun. destruct Hrun as (i2 & s2 & _ & Hrun).
    apply mbind_Ok in Hrun. destruct Hrun as (i3 & s3 & _ & Hrun).
    apply mbind_Ok in Hrun. destruct Hrun as (i4 & s4 & _ & Hrun).
    injection Hrun as <- _. now exists i4. }
  intros Hrun px v Hpx Hv.
  assert (Hpre : exists pre, out = clip_uint16 pre).
  { destruct Hrun as [Hrun | [Hrun | Hrun]].
    - unfold bw_negative_processing in Hrun.
      apply mbind_Ok in Hrun. destruct Hrun as (i1 & s1 & _ & Hrun).
      apply mbind_Ok in Hrun. destruct Hrun as (i2 & s2 & _ & Hrun).
      apply mbind_Ok in Hrun. destruct Hrun as (i3 & s3 & _ & Hrun).
      injection Hrun as <- _. now exists i3.
    - now apply (Hslide img).
    - now apply (Hslide (invert img)). }
  destruct Hpre as (pre & ->).
  now apply (clip_uint16_samples pre px v).
Qed.

Lemma film_output_is_16_bit_witness :
  let E := Example.libraries [] Example.tilted imread_none in
  exists out self',
    slide_processing (E := E) default_parameters Example.scan Sample.cropless
    = (Ok out, self')
    /\ forall px v, In px (ravel out) -> In v px ->
       exists z, v = IZR z /\ (0 <= z <= 65535)%Z.
Proof.
  intros E.
  assert (Hrun : exists out self',
             slide_processing (E := E) default_parameters Example.scan
               Sample.cropless
             = (Ok out, self')).
  { eexists. eexists.
    unfold slide_processing, mbind, eval, mret, hist_EQ. simpl getattr.
    unfold rbind at 1.
    unfold crop, rbind, nth, wb_adjust_coeff, mbind, eval, mret.
    cbv beta iota. change (pick_wb Sample.cropless) with false.
    cbv beta iota. reflexivity. }
  destruct Hrun as (out & self' & Hrun).
  exists out, self'. split; [exact Hrun|].
  exact (film_output_is_16_bit (E := E) default_parameters Example.scan out
           _ self' (or_intror (or_introl Hrun))).
Defined.

(** ** Crop estimation, continued *)







(** ** Memory *)

(** X13.  After [clear_memory] a readable photo has forgotten its images:
    [get_IMG] raises [AttributeError] for every output, [export] writes no
    file, and [processed] is off; the settings, the crop rectangle and the
    flag [proxy] are as before. *)
Theorem clear_memory_forgets {E : Extern} (cp : class_parameters)
  (xp : exif_parameters) (self : photo) :
  FileReadError self = false ->
  let self' := snd (clear_memory self) in
  fst (clear_memory self) = Ok tt
  /\ processed self' = false
  /\ (forall output as_array,
        get_IMG cp self' output as_array = Raise AttributeError)
  /\ (forall filename, export cp xp filename self' = (Ok None, self'))
  /\ params self' = params self
  /\ rect self' = rect self
  /\ proxy self' = proxy self.
Proof.
  intros Hread. destruct self. simpl in Hread. subst. simpl.
  split; [reflexivity|]. split; [reflexivity|].
  split; [intros [] as_array; reflexivity|].
  split; [reflexivity|]. split; [reflexivity|]. split; reflexivity.
Qed.

Lemma clear_memory_forgets_witness :
  let E := Example.libraries [] Example.tilted imread_none in
  get_IMG (E := E) default_parameters (snd (clear_memory Example.turned))
    output_RAW true
  = Raise AttributeError.
Proof.
  intros E.
  destruct (clear_memory_forgets (E := E) default_parameters
              default_exif_parameters Example.turned eq_refl)
    as (_ & _ & Hget & _).
  apply Hget.
Defined.

(** ** The run of [process], continued *)

Section Runs.

Context {E : Extern} (cp : class_parameters).

Lemma process_start_keeps_thresh : keeps thresh process_start.
Proof.
  unfold process_start, load.
  repeat match goal with
  | |- keeps _ (mbind _ _) => apply keeps_mbind; [|intros ?]
  | |- keeps _ (mret _) => apply keeps_mret
  | |- keeps _ (eval _) => apply keeps_eval
  | |- keeps _ (assign _) => apply keeps_assign; intros []; reflexivity
  | |- keeps _ (if ?b then _ else _) => destruct b
  | |- keeps _ (match ?x with _ => _ end) => destruct x
  end.
Qed.

Lemma step_pool_visible (pool : list run) (n : nat) (self : photo) :
  match nth_error pool n with
  | Some (computed c img dust_mask) =>
      visible (snd (step_pool cp n pool self))
      = if recent_only c && (0 <? active_processes self - 1)%Z
        then visible self else (Some img, Some dust_mask, true)
  | _ => visible (snd (step_pool cp n pool self)) = visible self
  end.
Proof.
  revert n. induction pool as [|r pool IH]; intros n.
  - destruct n; reflexivity.
  - destruct n as [|n]; simpl.
    + pose proof (step_run_visible cp r self) as Hr.
      destruct (step_run cp r self) as [r' s'] eqn:Hs. simpl in *.
      destruct r; try exact Hr.
      destruct (recent_only c && (0 <? active_processes self - 1)%Z);
        exact Hr.
    + specialize (IH n).
      destruct (step_pool cp n pool self) as [pool' s']. exact IH.
Qed.

Lemma counted_run_bounds (r : run) : (0 <= counted_run r <= 1)%Z.
Proof. destruct r as [| | | |[|]]; simpl; lia. Qed.

Lemma counted_runs_cons (r : run) (pool : list run) :
  counted_runs (r :: pool) = (counted_run r + counted_runs pool)%Z.
Proof. reflexivity. Qed.

Lemma counted_runs_nonneg (pool : list run) : (0 <= counted_runs pool)%Z.
Proof.
  induction pool as [|r pool IH]; [unfold counted_runs; simpl; lia|].
  rewrite counted_runs_cons. pose proof (counted_run_bounds r). lia.
Qed.

Lemma counted_runs_In (pool : list run) (r : run) :
  In r pool -> (counted_run r <= counted_runs pool)%Z.
Proof.
  induction pool as [|r' pool IH]; [contradiction|].
  rewrite counted_runs_cons. intros [-> | Hin].
  - pose proof (counted_runs_nonneg pool). lia.
  - specialize (IH Hin). pose proof (counted_run_bounds r'). lia.
Qed.

Lemma counted_runs_two (pool : list run) (n : nat) (c : call)
  (img dust_mask : image) (e : exn) :
  nth_error pool n = Some (computed c img dust_mask) ->
  In (raised true e) pool ->
  (2 <= counted_runs pool)%Z.
Proof.
  revert n. induction pool as [|r pool IH]; intros n; [contradiction|].
  rewrite counted_runs_cons.
  destruct n as [|n]; simpl nth_error.
  - intros [= ->] [Heq | Hin]; [discriminate|].
    pose proof (counted_runs_In pool _ Hin) as Hle.
    change (counted_run (raised true e)) with 1%Z in Hle.
    change (counted_run (computed c img dust_mask)) with 1%Z. lia.
  - intros Hnth [-> | Hin].
    + apply nth_error_In in Hnth.
      pose proof (counted_runs_In pool _ Hnth) as Hle.
      change (counted_run (computed c img dust_mask)) with 1%Z in Hle.
      change (counted_run (raised true e)) with 1%Z. lia.
    + specialize (IH n Hnth Hin). pose proof (counted_run_bounds r). lia.
Qed.

Lemma step_pool_raised_stays (n : nat) (pool : list run) (self : photo)
  (counted : bool) (e : exn) :
  In (raised counted e) pool ->
  In (raised counted e) (fst (step_pool cp n pool self)).
Proof.
  revert n. induction pool as [|r pool IH]; intros n; [contradiction|].
  destruct n as [|n]; simpl.
  - destruct (step_run cp r self) as [r' s'] eqn:Hs. simpl.
    intros [-> | Hin]; [|now right].
    simpl in Hs. injection Hs as <- _. now left.
  - specialize (IH n). destruct (step_pool cp n pool self) as [pool' s'].
    simpl in *. intros [-> | Hin]; [now left | right; now apply IH].
Qed.

Lemma run_schedule_raised_stays (schedule : list nat) (pool : list run)
  (self : photo) (counted : bool) (e : exn) :
  In (raised counted e) pool ->
  In (raised counted e) (fst (run_schedule cp schedule pool self)).
Proof.
  revert pool self. induction schedule as [|n schedule IH]; intros pool self.
  - trivial.
  - simpl. intros Hin.
    pose proof (step_pool_raised_stays n pool self counted e Hin) as Hn.
    destruct (step_pool cp n pool self) as [pool' s']. now apply IH.
Qed.

Lemma run_schedule_app (before after : list nat) (pool : list run)
  (self : photo) :
  run_schedule cp (before ++ after) pool self
  = run_schedule cp after (fst (run_schedule cp before pool self))
      (snd (run_schedule cp before pool self)).
Proof.
  revert pool self. induction before as [|n before IH]; intros pool self.
  - reflexivity.
  - simpl. destruct (step_pool cp n pool self) as [pool' s']. apply IH.
Qed.

End Runs.

(** X14.  [skip_crop] has no effect on a photo that has no [thresh]
    attribute, as before the first run and after [clear_memory]: [process]
    then returns or raises the same, and leaves the same photo, with
    [skip_crop=True] as with [skip_crop=False]. *)
Theorem skip_crop_needs_thresh {E : Extern} (cp : class_parameters)
  (full_res recent_only : bool) (self : photo) :
  thresh self = None ->
  process cp full_res recent_only true self
  = process cp full_res recent_only false self.
Proof.
  intros Hthresh. rewrite !process_unfold.
  pose proof (process_start_keeps_thresh self) as Hkeep.
  destruct (process_start self) as [[[|]|e] s1]; try reflexivity.
  simpl in Hkeep. rewrite Hthresh in Hkeep.
  assert (Hsame : process_pipeline cp full_res true s1
                  = process_pipeline cp full_res false s1).
  { unfold process_pipeline. unfold mbind at 1. unfold eval at 1.
    symmetry. unfold mbind at 1. unfold eval at 1.
    rewrite Hkeep. reflexivity. }
  now rewrite Hsame.
Qed.

Lemma skip_crop_needs_thresh_witness :
  let E := Example.libraries [] Example.tilted imread_none in
  thresh Example.turned = None
  /\ process (E := E) default_parameters false false true Example.turned
     = process (E := E) default_parameters false false false Example.turned.
Proof.
  intros E. split; [reflexivity|].
  apply (skip_crop_needs_thresh (E := E) default_parameters false false
           Example.turned).
  reflexivity.
Defined.

(** X15.  An invocation of [process] that raises leaves the visible result
    as it was.  Either the exception came from the load, and
    [active_processes] is as before the call; or it came after line 274,
    and [active_processes] is one more than before the call: the decrement
    of line 309 is not reached. *)
Theorem process_raise_keeps_count {E : Extern} (cp : class_parameters)
  (full_res recent_only skip_crop : bool) (self self' : photo) (e : exn) :
  process cp full_res recent_only skip_crop self = (Raise e, self') ->
  visible self' = visible self
  /\ ((process_start self = (Raise e, self')
       /\ active_processes self' = active_processes self)
      \/ (exists s1,
            process_start self = (Ok true, s1)
            /\ process_pipeline cp full_res skip_crop s1 = (Raise e, self')
            /\ active_processes self' = (active_processes self + 1)%Z)).
Proof.
  rewrite process_unfold.
  destruct (process_start self) as [r s1] eqn:Hstart.
  destruct (process_start_cases self s1 r Hstart) as (Hvis & _ & Hr).
  destruct r as [[|]|e1]; [| discriminate |].
  - destruct Hr as [_ Hinc].
    pose proof (process_pipeline_keeps cp active_processes
                  active_processes_frame full_res skip_crop s1) as Hkeep.
    pose proof (process_pipeline_keeps cp visible visible_frame
                  full_res skip_crop s1) as Hkeepv.
    destruct (process_pipeline cp full_res skip_crop s1)
      as [[[img dm]|e2] s2] eqn:Hpipe.
    + rewrite process_finish_spec. discriminate.
    + simpl in *. intros [= -> ->]. split; [congruence|].
      right. exists s1. split; [reflexivity|]. split; [assumption|]. lia.
  - intros [= -> ->]. split; [assumption|]. left. now split.
Qed.

Lemma process_raise_keeps_count_witness :
  let E := Example.libraries [] Example.tilted imread_none in
  exists self',
    process (E := E) default_parameters false false false Sample.flagged
    = (Raise AttributeError, self')
    /\ active_processes self' = (active_processes Sample.flagged + 1)%Z
    /\ visible self' = visible Sample.flagged.
Proof.
  intros E. eexists. split; [reflexivity|].
  destruct (process_raise_keeps_count (E := E) default_parameters
              false false false Sample.flagged _ AttributeError eq_refl)
    as [Hvis _].
  split; [reflexivity | exact Hvis].
Defined.

(** X16.  The latest-only check counts the runs in flight.  Start a pool
    of runs on a photo whose [active_processes] is the number of the
    pool's counted runs (0 for runs not yet started), and let them take
    turns in any order.  When a run with [recent_only=True] then reaches the
    end of [process] (lines 309-316), it commits its result if it is the
    only run past line 274 that has not taken itself off the counter, and
    leaves the visible result as it is otherwise. *)
Theorem latest_only_by_runs {E : Extern} (cp : class_parameters)
  (schedule : list nat) (pool0 : list run) (self0 : photo) (n : nat)
  (c : call) (img dust_mask : image) :
  active_processes self0 = counted_runs pool0 ->
  let pool := fst (run_schedule cp schedule pool0 self0) in
  let self := snd (run_schedule cp schedule pool0 self0) in
  nth_error pool n = Some (computed c img dust_mask) ->
  recent_only c = true ->
  active_processes self = counted_runs pool
  /\ visible (snd (step_pool cp n pool self))
     = if (1 <? counted_runs pool)%Z then visible self
       else (Some img, Some dust_mask, true).
Proof.
  intros Hcount pool self Hnth Hrecent.
  pose proof (run_schedule_counter cp schedule pool0 self0) as Hrun.
  fold pool self in Hrun.
  assert (Hnow : active_processes self = counted_runs pool) by lia.
  split; [exact Hnow|].
  pose proof (step_pool_visible cp pool n self) as Hstep.
  rewrite Hnth, Hrecent, Hnow in Hstep. simpl in Hstep. rewrite Hstep.
  replace (0 <? counted_runs pool - 1)%Z with (1 <? counted_runs pool)%Z;
    [reflexivity|].
  destruct (1 <? counted_runs pool)%Z eqn:H1;
    destruct (0 <? counted_runs pool - 1)%Z eqn:H2; try reflexivity; lia.
Qed.

Lemma latest_only_by_runs_witness :
  let E := Example.libraries [] Example.tilted imread_none in
  let c := {| full_res := false; recent_only := true; skip_crop := false |} in
  let pool0 := [called c; called c] in
  let pool := fst (run_schedule (E := E) default_parameters [0; 1; 0]%nat
                     pool0 Example.turned) in
  let self := snd (run_schedule (E := E) default_parameters [0; 1; 0]%nat
                     pool0 Example.turned) in
  counted_runs pool = 2%Z
  /\ visible (snd (step_pool (E := E) default_parameters 0 pool self))
     = visible self.
Proof.
  intros E c pool0 pool self. split; [reflexivity|].
  destruct (latest_only_by_runs (E := E) default_parameters [0; 1; 0]%nat
              pool0 Example.turned 0 c Example.scan
              (elementwise (fun _ => 0) Example.scan)
              eq_refl eq_refl eq_refl) as [_ Hvis].
  exact Hvis.
Defined.

(** X17.  A run of [process] that an exception ended after line 274 stays
    on the counter, so from then on no run with [recent_only=True] commits
    its result, whatever runs come later and in whatever order they take
    their turns. *)
Theorem failed_run_blocks_latest_only {E : Extern} (cp : class_parameters)
  (before after : list nat) (pool0 : list run) (self0 : photo) (e : exn)
  (n : nat) (c : call) (img dust_mask : image) :
  active_processes self0 = counted_runs pool0 ->
  In (raised true e) (fst (run_schedule cp before pool0 self0)) ->
  let pool := fst (run_schedule cp (before ++ after) pool0 self0) in
  let self := snd (run_schedule cp (before ++ after) pool0 self0) in
  nth_error pool n = Some (computed c img dust_mask) ->
  recent_only c = true ->
  visible (snd (step_pool cp n pool self)) = visible self.
Proof.
  intros Hcount Hfailed pool self Hnth Hrecent.
  assert (Hstill : In (raised true e) pool).
  { unfold pool. rewrite run_schedule_app. simpl.
    now apply run_schedule_raised_stays. }
  pose proof (counted_runs_two pool n c img dust_mask e Hnth Hstill) as Htwo.
  pose proof (run_schedule_counter cp (before ++ after) pool0 self0) as Hrun.
  fold pool self in Hrun.
  pose proof (step_pool_visible cp pool n self) as Hstep.
  rewrite Hnth, Hrecent in Hstep. simpl in Hstep. rewrite Hstep.
  destruct (0 <? active_processes self - 1)%Z eqn:Hlt; [reflexivity|lia].
Qed.

Lemma failed_run_blocks_latest_only_witness :
  let E := Example.libraries [] Example.tilted imread_none in
  let preview :=
    {| full_res := false; recent_only := true; skip_crop := false |} in
  let full :=
    {| full_res := true; recent_only := true; skip_crop := false |} in
  let pool0 := [called preview; called full] in
  fst (run_schedule (E := E) default_parameters [0; 0]%nat pool0
         Sample.flagged)
  = [raised true AttributeError; called full]
  /\ fst (run_schedule (E := E) default_parameters [0; 0; 1; 1; 1]%nat pool0
            Sample.flagged)
     = [raised true AttributeError; returned]
  /\ visible (snd (run_schedule (E := E) default_parameters
                     [0; 0; 1; 1; 1]%nat pool0 Sample.flagged))
     = (None, None, false).
Proof.
  intros E preview full pool0.
  split; [reflexivity|]. split; [reflexivity|].
  pose proof (failed_run_blocks_latest_only (E := E) default_parameters
                [0; 0]%nat [1; 1]%nat pool0 Sample.flagged AttributeError
                1 full Example.scan (elementwise (fun _ => 0) Example.scan)
                eq_refl (or_introl eq_refl) eq_refl eq_refl) as Hvis.
  exact Hvis.
Defined.

(** ** What the film pipelines assign *)

Ltac by_cases_assign :=
  apply keeps_assign; intros [];
  first [ reflexivity
        | match goal with
          | p : processing_parameters |- _ => destruct p; reflexivity
          end ].

Ltac by_cases_step :=
  match goal with
  | |- keeps _ (mbind _ _) => apply keeps_mbind; [|intros ?]
  | |- keeps _ (mret _) => apply keeps_mret
  | |- keeps _ (eval _) => apply keeps_eval
  | |- keeps _ (assign _) => by_cases_assign
  | |- keeps _ (if ?b then _ else _) => destruct b
  | |- keeps _ (match ?x with _ => _ end) => destruct x
  end.

Ltac by_cases := repeat by_cases_step.

Lemma wb_adjust_coeff_unarmed {E : Extern} (cp : class_parameters)
  (img : image) (self : photo) :
  pick_wb self = false ->
  snd (wb_adjust_coeff cp img self) = self
  /\ exists out, fst (wb_adjust_coeff cp img self) = Ok out.
Proof.
  intros Hpick. unfold wb_adjust_coeff, mbind, eval, mret. simpl.
  rewrite Hpick. simpl. split; [reflexivity | eexists; reflexivity].
Qed.

Lemma slide_processing_without_wb {E : Extern} (cp : class_parameters)
  (img : image) : keeps without_wb (slide_processing cp img).
Proof.
  unfold slide_processing. simpl nth.
  apply keeps_mbind; [apply keeps_eval | intros toned].
  apply keeps_mbind; [unfold wb_adjust_coeff; by_cases | intros balanced].
  by_cases.
Qed.

Lemma slide_processing_unarmed {E : Extern} (cp : class_parameters)
  (img : image) (self : photo) :
  pick_wb self = false -> snd (slide_processing cp img self) = self.
Proof.
  intros Hpick. unfold slide_processing. simpl nth.
  unfold mbind at 1, eval at 1.
  destruct (hist_EQ cp self img) as [toned|e]; [|reflexivity].
  unfold mbind at 1.
  destruct (wb_adjust_coeff_unarmed cp toned self Hpick) as [Hsame [out Hout]].
  destruct (wb_adjust_coeff cp toned self) as [r s]. simpl in Hsame, Hout.
  subst r s. reflexivity.
Qed.

(** X18.  The film pipelines assign the white balance only: whatever
    [bw_negative_processing], [colour_negative_processing],
    [slide_processing] and [crop_only] do to a buffer, returning or
    raising, every attribute of the photo other than [temp], [tint] and
    [pick_wb] is the same afterwards; and when the picker is not armed they
    assign nothing at all. *)
Theorem film_pipelines_assign_white_balance_only {E : Extern}
  (cp : class_parameters) (img : image) (self : photo) (m : M image) :
  In m [bw_negative_processing cp img; colour_negative_processing cp img;
        slide_processing cp img; crop_only img] ->
  without_wb (snd (m self)) = without_wb self
  /\ (pick_wb self = false -> snd (m self) = self).
Proof.
  intros [<- | [<- | [<- | [<- | []]]]].
  - split.
    + revert self. change (keeps without_wb (bw_negative_processing cp img)).
      unfold bw_negative_processing. by_cases.
    + intros _. revert self.
      change (keeps (fun s => s) (bw_negative_processing cp img)).
      unfold bw_negative_processing. by_cases.
  - split.
    + apply slide_processing_without_wb.
    + apply slide_processing_unarmed.
  - split.
    + apply slide_processing_without_wb.
    + apply slide_processing_unarmed.
  - split; reflexivity.
Qed.

Lemma film_pipelines_assign_white_balance_only_witness :
  let E := Sample.libraries_with_mean (1, 1, 1, 0) in
  without_wb (snd (slide_processing (E := E) default_parameters
                     Example.scan Sample.armed))
  = without_wb Sample.armed.
Proof.
  intros E.
  apply (film_pipelines_assign_white_balance_only (E := E)
           default_parameters Example.scan Sample.armed
           (slide_processing default_parameters Example.scan)).
  right. right. left. reflexivity.
Defined.

(** ** The picker and the film type *)

Section KeepsOn.

Context {X : Type} (P : X -> Prop) (f : photo -> X).

Lemma keeps_on_keeps {A : Type} (m : M A) : keeps f m -> keeps_on P f m.
Proof. intros Hm self _. apply Hm. Qed.

Lemma keeps_on_mbind {A B : Type} (m : M A) (k : A -> M B) :
  keeps_on P f m -> (forall a, keeps_on P f (k a)) ->
  keeps_on P f (mbind m k).
Proof.
  intros Hm Hk self HP. unfold mbind.
  specialize (Hm self HP). destruct (m self) as [[a|e] self1]; simpl in *.
  - rewrite <- Hm. apply Hk. now rewrite Hm.
  - assumption.
Qed.

Lemma keeps_on_self {B : Type} (k : photo -> M B) :
  (forall self, P (f self) -> f (snd (k self self)) = f self) ->
  keeps_on P f (mbind (eval Ok) k).
Proof. intros Hk self HP. unfold mbind, eval. now apply Hk. Qed.

End KeepsOn.

Section Picker.

Context {E : Extern} (cp : class_parameters).

Lemma process_start_keeps_picker : keeps picker_state process_start.
Proof. unfold process_start, load. by_cases. Qed.

Lemma process_pipeline_keeps_picker (full_res skip_crop : bool) :
  keeps_on other_film picker_state (process_pipeline cp full_res skip_crop).
Proof.
  unfold process_pipeline.
  apply keeps_on_mbind; [apply keeps_on_keeps, keeps_eval | intros self0].
  apply keeps_on_mbind.
  { apply keeps_on_keeps.
    destruct (negb skip_crop || negb (hasattr (thresh self0)));
      [|apply keeps_mret].
    apply keeps_mbind; [apply keeps_eval | intros [[t r] lc]].
    by_cases. }
  intros _.
  apply keeps_on_mbind; [apply keeps_on_keeps, keeps_eval | intros img].
  apply keeps_on_mbind; [apply keeps_on_keeps, keeps_eval | intros dust].
  apply keeps_on_self. intros self [H1 H2]. simpl in H1, H2.
  assert (Hrest : forall (m : M image),
            keeps picker_state m ->
            picker_state
              (snd (mbind m (fun img0 =>
                      mbind (eval (fun self1 =>
                               (rect <- getattr (rect self1) ;;
                                crop cp self1 img0 rect false)%result))
                            (fun img1 => mret (img1, dust))) self))
            = picker_state self).
  { intros m Hm. apply keeps_mbind; [exact Hm | intros img0]. by_cases. }
  assert (Hbw : keeps picker_state (bw_negative_processing cp img)).
  { unfold bw_negative_processing. by_cases. }
  destruct (film_type (params self)) as [|p|p];
    [apply Hrest, Hbw | | apply Hrest, keeps_mret].
  destruct p as [[p|p|]|[p|p|]|];
    solve [ apply Hrest, keeps_mret | contradiction
          | exfalso; apply H2; reflexivity ].
Qed.

End Picker.

(** X19.  The picker waits for a colour film type: on a photo whose
    [film_type] is neither 1 (colour negative) nor 2 (slide),
    [set_wb_from_picker] stores the picked place and arms the picker, and
    the run of [process] it starts, returning or raising, leaves the picker
    armed and [temp] and [tint] as they were. *)
Theorem picker_waits_for_colour_film {E : Extern} (cp : class_parameters)
  (x y : R) (self : photo) :
  film_type (params self) <> 1%Z ->
  film_type (params self) <> 2%Z ->
  let self' := snd (set_wb_from_picker cp x y self) in
  pick_wb self' = true
  /\ wb_picker_params self' = Some (x, y, picker_radius cp / 100)
  /\ temp (params self') = temp (params self)
  /\ tint (params self') = tint (params self).
Proof.
  intros H1 H2 self'.
  set (s0 := set_pick_wb true
               (set_wb_picker_params (Some (x, y, picker_radius cp / 100))
                  self)).
  assert (Hs0 : picker_state s0
                = (true, Some (x, y, picker_radius cp / 100),
                   temp (params self), tint (params self),
                   film_type (params self))).
  { unfold s0. destruct self. reflexivity. }
  assert (Hself' : self' = snd (process cp false false false s0)).
  { reflexivity. }
  assert (Hkeep : picker_state self' = picker_state s0).
  { rewrite Hself', process_unfold.
    pose proof (process_start_keeps_picker s0) as Hstart.
    destruct (process_start s0) as [[[|]|e] s1]; simpl in *; try assumption.
    assert (Hother : other_film (picker_state s1)).
    { rewrite Hstart, Hs0. split; assumption. }
    pose proof (process_pipeline_keeps_picker cp false false s1 Hother)
      as Hpipe.
    destruct (process_pipeline cp false false s1) as [[[img dm]|e] s2];
      simpl in Hpipe; [|simpl; congruence].
    rewrite process_finish_spec. simpl. rewrite <- Hstart, <- Hpipe.
    destruct s2; reflexivity. }
  rewrite Hs0 in Hkeep. unfold picker_state in Hkeep.
  injection Hkeep as Hp Hw Ht Hi _. repeat split; assumption.
Qed.

Lemma picker_waits_for_colour_film_witness :
  let E := Example.libraries [] Example.tilted imread_none in
  film_type (params Example.turned) = 3%Z
  /\ pick_wb (snd (set_wb_from_picker (E := E) default_parameters
                     (1 / 2) (1 / 2) Example.turned)) = true.
Proof.
  intros E. split; [reflexivity|].
  apply (picker_waits_for_colour_film (E := E) default_parameters
           (1 / 2) (1 / 2) Example.turned); simpl; lia.
Defined.

(** ** What a run of [process] leaves *)

Section Leaves.

Context {E : Extern} (cp : class_parameters).

(** The attributes that the end of the pipeline reads. *)
Lemma process_pipeline_attributes (full_res skip_crop : bool)
  (s1 s2 : photo) (img dust_mask : image) :
  process_pipeline cp full_res skip_crop s1 = (Ok (img, dust_mask), s2) ->
  hasattr (thresh s2) = true /\ hasattr (rect s2) = true
  /\ FileReadError s2 = FileReadError s1.
Proof.
  unfold process_pipeline. unfold mbind at 1, eval at 1. cbv beta iota.
  unfold mbind at 1.
  match goal with
  | |- (let (r, self1) := ?block s1 in _) = _ -> _ =>
      assert (Hblock : keeps FileReadError block
                       /\ forall sa, block s1 = (Ok tt, sa) ->
                          hasattr (thresh sa) = true);
      [|destruct (block s1) as [[[]|e] sa] eqn:Hb; [|discriminate]]
  end.
  { split.
    - destruct (negb skip_crop || negb (hasattr (thresh s1)));
        [|apply keeps_mret].
      apply keeps_mbind; [apply keeps_eval | intros [[t r] lc]]. by_cases.
    - intros sa.
      destruct (hasattr (thresh s1)) eqn:Hthresh, skip_crop; simpl;
        try (intros [= <-]; assumption);
        unfold mbind at 1, eval at 1;
        (destruct (find_optimal_crop s1) as [[[t r] lc]|e]; [|discriminate]);
        unfold mbind at 1, assign at 1; cbv beta iota;
        match goal with
        | |- ?m ?st = _ -> _ =>
            assert (Hk : keeps (fun s => hasattr (thresh s)) m) by by_cases;
            specialize (Hk st); intros Heq; rewrite Heq in Hk; simpl in Hk;
            rewrite Hk; destruct s1; reflexivity
        end. }
  destruct Hblock as [Hkeep Hthresh]. specialize (Hthresh sa eq_refl).
  specialize (Hkeep s1). rewrite Hb in Hkeep. simpl in Hkeep.
  unfold mbind at 1, eval at 1.
  match goal with
  | |- match ?sel with Ok _ => _ | Raise _ => _ end = _ -> _ =>
      destruct sel as [img0|e]; [|discriminate]
  end.
  unfold mbind at 1, eval at 1.
  destruct (rect sa) as [r|] eqn:Hrect; [|discriminate].
  simpl getattr. unfold rbind at 1.
  match goal with
  | |- match ?dust with Ok _ => _ | Raise _ => _ end = _ -> _ =>
      destruct dust as [dm|e]; [|discriminate]
  end.
  unfold mbind at 1, eval at 1.
  match goal with
  | |- ?m sa = _ -> _ =>
      assert (Hk : keeps (fun s => (thresh s, rect s, FileReadError s)) m)
  end.
  { apply keeps_mbind; [|intros ?; by_cases].
    assert (Hbw : keeps (fun s => (thresh s, rect s, FileReadError s))
                    (bw_negative_processing cp img0)).
    { unfold bw_negative_processing. by_cases. }
    assert (Hsl : forall i, keeps (fun s => (thresh s, rect s,
                                             FileReadError s))
                              (slide_processing cp i)).
    { intros i. unfold slide_processing. simpl nth.
      apply keeps_mbind; [apply keeps_eval | intros toned].
      apply keeps_mbind; [unfold wb_adjust_coeff; by_cases | intros ?].
      by_cases. }
    destruct (film_type (params sa)) as [|p|p];
      [exact Hbw | | apply keeps_mret].
    destruct p as [[p|p|]|[p|p|]|];
      solve [ apply keeps_mret | apply Hsl ]. }
  intros Heq. specialize (Hk sa). rewrite Heq in Hk. simpl in Hk.
  injection Hk as Ht Hr Hf.
  rewrite Ht, Hr, Hf, Hrect, Hthresh, Hkeep. repeat split.
Qed.

End Leaves.

(** X20.  What an invocation of [process] without [recent_only] leaves
    when it returns: either the photo is flagged unreadable and its visible
    result is as before the call, or the photo is processed, with the
    attributes [IMG], [dust_mask], [thresh] and [rect] all present. *)
Theorem process_leaves_result {E : Extern} (cp : class_parameters)
  (full_res skip_crop : bool) (self self' : photo) :
  process cp full_res false skip_crop self = (Ok tt, self') ->
  if FileReadError self' then visible self' = visible self
  else processed self' = true
       /\ hasattr (IMG self') = true /\ hasattr (dust_mask self') = true
       /\ hasattr (thresh self') = true /\ hasattr (rect self') = true.
Proof.
  rewrite process_unfold.
  destruct (process_start self) as [r s1] eqn:Hstart.
  destruct (process_start_cases self s1 r Hstart) as (Hvis & _ & Hr).
  destruct r as [[|]|e]; [| |discriminate].
  - destruct Hr as [Hflag _].
    destruct (process_pipeline cp full_res skip_crop s1)
      as [[[img dm]|e] s2] eqn:Hpipe; [|discriminate].
    destruct (process_pipeline_attributes cp _ _ _ _ _ _ Hpipe)
      as (Hthresh & Hrect & Hsame).
    rewrite process_finish_spec. simpl. intros [= <-].
    destruct s2. simpl in *. rewrite Hsame, Hflag, Hthresh, Hrect.
    repeat split.
  - destruct Hr as [Hflag _]. intros [= <-]. now rewrite Hflag.
Qed.

Lemma process_leaves_result_witness :
  let E := Example.libraries [] Example.tilted imread_none in
  exists self',
    process (E := E) default_parameters false false false Example.turned
    = (Ok tt, self')
    /\ processed self' = true /\ hasattr (thresh self') = true.
Proof.
  intros E. eexists. split; [reflexivity|].
  pose proof (process_leaves_result (E := E) default_parameters false false
                Example.turned _ eq_refl) as Hleft.
  simpl in Hleft. destruct Hleft as (Hp & _ & _ & Ht & _).
  split; assumption.
Defined.

(** X21.  The flag [proxy] outlives the proxy: [clear_memory] deletes
    [proxy_RAW_IMG] and leaves [proxy] set, and [process] sets the flag but
    never clears it.  So when a photo that has used a proxy is cleared and
    the file read again gives a buffer that needs none (height plus width
    within [max_proxy_size]), a preview run of [process] ([full_res=False])
    whose crop estimation succeeds raises [AttributeError] at line 290. *)
Theorem proxy_flag_outlives_proxy {E : Extern} (cp : class_parameters)
  (recent_only skip_crop : bool) (self0 s1 : photo) (raw : image)
  (found : image * option RotatedRect * option contour) :
  proxy self0 = true ->
  let self := snd (clear_memory self0) in
  process_start self = (Ok true, s1) ->
  RAW_IMG s1 = Some (Some raw) ->
  (Z.of_nat (shape0 raw + shape1 raw) <= max_proxy_size cp)%Z ->
  find_optimal_crop s1 = Ok found ->
  proxy self = true /\ proxy_RAW_IMG self = None
  /\ fst (process cp false recent_only skip_crop self) = Raise AttributeError.
Proof.
  intros Hproxy self Hstart Hraw Hsize Hfound.
  assert (Hself : proxy self = true /\ proxy_RAW_IMG self = None
                  /\ thresh self = None).
  { unfold self. destruct self0. simpl in *. now subst. }
  destruct Hself as (Hp & Hpr & Ht).
  split; [assumption|]. split; [assumption|].
  assert (Hkeep : keeps (fun s => (proxy s, proxy_RAW_IMG s, thresh s))
                    process_start).
  { unfold process_start, load. by_cases. }
  specialize (Hkeep self). rewrite Hstart, Hp, Hpr, Ht in Hkeep.
  simpl in Hkeep. injection Hkeep as Hp1 Hpr1 Ht1.
  rewrite process_unfold, Hstart.
  assert (Hpipe : fst (process_pipeline cp false skip_crop s1)
                  = Raise AttributeError).
  { unfold process_pipeline. unfold mbind at 1, eval at 1.
    rewrite Ht1. replace (negb skip_crop || negb (hasattr None)) with true
      by (destruct skip_crop; reflexivity).
    unfold mbind at 1. unfold mbind at 1, eval at 1. rewrite Hfound.
    destruct found as [[t r] lc].
    destruct s1. simpl in *. subst.
    unfold mbind, assign, eval, mret, RAW_IMG_array. simpl.
    apply Z.ltb_ge in Hsize. rewrite Hsize. reflexivity. }
  destruct (process_pipeline cp false skip_crop s1) as [[[img dm]|e] s2];
    simpl in *; [discriminate|].
  injection Hpipe as ->. reflexivity.
Qed.

Lemma proxy_flag_outlives_proxy_witness :
  let E :=
    Example.libraries [] Example.tilted (imread_array Example.scan false) in
  let self := snd (clear_memory Sample.flagged) in
  proxy self = true /\ proxy_RAW_IMG self = None
  /\ fst (process (E := E) default_parameters false false false self)
     = Raise AttributeError.
Proof.
  intros E self.
  refine (proxy_flag_outlives_proxy (E := E) default_parameters false false
            Sample.flagged _ Example.scan _ eq_refl eq_refl eq_refl _ eq_refl).
  simpl. lia.
Defined.

(** ** Loading *)

(** X22.  What [load] leaves when it returns: either the photo is flagged
    unreadable and rejected, and [RAW_IMG] holds [None] or is as before;
    or the flag is clear, [RAW_IMG] holds a buffer, and [memory_alloc] is
    48 times the bytes of that buffer. *)
Theorem load_outcome {E : Extern} (full_res : bool) (self self' : photo) :
  load full_res self = (Ok tt, self') ->
  (FileReadError self' = true /\ reject (params self') = true
   /\ (RAW_IMG self' = Some None \/ RAW_IMG self' = RAW_IMG self))
  \/ (FileReadError self' = false
      /\ exists raw,
           RAW_IMG self' = Some (Some raw)
           /\ memory_alloc self' = Some (np_nbytes raw * 4 * 12)%Z).
Proof.
  unfold load. unfold mbind at 1, eval at 1.
  destruct (read_file (file_directory self) (negb full_res))
    as [raw desc|img [|]| |].
  - unfold mbind at 1, assign at 1. unfold mbind at 1, assign at 1.
    unfold mbind at 1, eval at 1.
    match goal with
    | |- match ?trim with Ok _ => _ | Raise _ => _ end = _ -> _ =>
        destruct trim as [trimmed|e]; [|discriminate]
    end.
    destruct self as [p ? ? ? ? ? ? ? ? ? ? ? ? ? ? ? ? ? ? ?].
    intros [= <-]. right. split; [reflexivity|].
    exists trimmed. split; reflexivity.
  - destruct self as [p ? ? ? ? ? ? ? ? ? ? ? ? ? ? ? ? ? ? ?].
    intros [= <-]. right. split; [reflexivity|].
    eexists. split; reflexivity.
  - destruct self as [p ? ? ? ? ? ? ? ? ? ? ? ? ? ? ? ? ? ? ?].
    intros [= <-]. right. split; [reflexivity|].
    eexists. split; reflexivity.
  - destruct self as [[] ? ? ? ? ? ? ? ? ? ? ? ? ? ? ? ? ? ? ?].
    intros [= <-]. left. split; [reflexivity|]. split; [reflexivity|].
    left. reflexivity.
  - destruct self as [[] ? ? ? ? ? ? ? ? ? ? ? ? ? ? ? ? ? ? ?].
    intros [= <-]. left. split; [reflexivity|]. split; [reflexivity|].
    right. reflexivity.
Qed.

Lemma load_outcome_witness :
  let E :=
    Example.libraries [] Example.tilted (imread_array Example.scan true) in
  exists self',
    load (E := E) false Example.fresh = (Ok tt, self')
    /\ FileReadError self' = false
    /\ RAW_IMG self'
       = Some (Some (elementwise (fun v => v * 256) Example.scan)).
Proof.
  intros E. eexists. split; [reflexivity|].
  destruct (load_outcome (E := E) false Example.fresh _ eq_refl)
    as [[Hflag _] | [Hflag _]]; [discriminate Hflag|].
  split; [exact Hflag | reflexivity].
Defined.

(** X23.  A decoded RAW file in which no contour is found (an all-black
    frame) makes [load] raise [ValueError] at line 133, after the except
    clauses: the photo is neither flagged unreadable nor rejected, and
    [RAW_IMG] keeps the decoded buffer as [rawpy] gave it, with its borders
    and in RGB channel order. *)
Theorem load_without_contours {E : Extern} (full_res : bool) (self : photo)
  (raw scaled gray thresh : image) (color_desc : string) :
  read_file (file_directory self) (negb full_res)
  = rawpy_decoded raw color_desc ->
  cv2_convertScaleAbs raw (255 / 65535) = Ok scaled ->
  cv2_cvtColor scaled COLOR_RGB2GRAY = Ok gray ->
  cv2_threshold gray 0 255 THRESH_BINARY = Ok thresh ->
  cv2_findContours thresh RETR_EXTERNAL = Ok [] ->
  let self' := snd (load full_res self) in
  fst (load full_res self) = Raise ValueError
  /\ RAW_IMG self' = Some (Some raw)
  /\ FileReadError self' = FileReadError self
  /\ reject (params self') = reject (params self)
  /\ hasattr (memory_alloc self') = hasattr (memory_alloc self).
Proof.
  intros Hread Hscale Hgray Hthresh Hnone self'.
  assert (Hload : load full_res self
                  = (Raise ValueError,
                     set_colour_desc (Some color_desc)
                       (set_RAW_IMG (Some (Some raw)) self))).
  { unfold load. unfold mbind at 1, eval at 1. rewrite Hread.
    unfold mbind at 1, assign at 1. unfold mbind at 1, assign at 1.
    unfold mbind at 1, eval at 1.
    rewrite Hscale. unfold rbind at 1. rewrite Hgray. unfold rbind at 1.
    rewrite Hthresh. unfold rbind at 1. rewrite Hnone. reflexivity. }
  unfold self'. rewrite Hload. destruct self. repeat split.
Qed.

Lemma load_without_contours_witness :
  let E :=
    Example.libraries [] Example.tilted
      (rawpy_decoded Example.scan EmptyString) in
  fst (load (E := E) false Example.fresh) = Raise ValueError
  /\ FileReadError (snd (load (E := E) false Example.fresh)) = false.
Proof.
  intros E.
  destruct (load_without_contours (E := E) false Example.fresh
              Example.scan Example.scan Example.scan Example.scan EmptyString
              eq_refl eq_refl eq_refl eq_refl eq_refl)
    as (Hraise & _ & Hflag & _).
  split; [exact Hraise | exact Hflag].
Defined.

(** ** Exif data *)

Lemma exif_get_set_same (ifd tag value : string) (d : exif_dict) :
  exif_get ifd tag (exif_set ifd tag value d) = Some value.
Proof.
  unfold exif_get, exif_set. simpl. now rewrite !String.eqb_refl.
Qed.

Lemma exif_get_set_other (ifd tag ifd' tag' value : string) (d : exif_dict) :
  String.eqb ifd' ifd && String.eqb tag' tag = false ->
  exif_get ifd tag (exif_set ifd' tag' value d) = exif_get ifd tag d.
Proof.
  intros Hother. unfold exif_get, exif_set. simpl. rewrite Hother.
  induction d as [|[[i t] v] d IH]; [reflexivity|]. simpl.
  destruct (String.eqb i ifd' && String.eqb t tag') eqn:Hhere; simpl.
  - rewrite IH.
    destruct (String.eqb i ifd && String.eqb t tag) eqn:Hthere;
      [|reflexivity].
    apply andb_prop in Hhere as [Hi Ht]. apply andb_prop in Hthere as [Hi' Ht'].
    apply String.eqb_eq in Hi, Ht, Hi', Ht'. subst.
    now rewrite !String.eqb_refl in Hother.
  - destruct (String.eqb i ifd && String.eqb t tag); [reflexivity | exact IH].
Qed.

Lemma get_exif_bytes_field (xp : exif_parameters) (self : photo)
  (field : exif_field) :
  exif_get (fst (exif_key field)) (snd (exif_key field))
    (exif_data (snd (get_exif_bytes xp self)))
  = if String.eqb (exif_parameter xp field) EmptyString
    then exif_get (fst (exif_key field)) (snd (exif_key field))
           (exif_data self)
    else Some (exif_parameter xp field).
Proof.
  unfold get_exif_bytes, mbind, assign, eval. simpl snd.
  destruct self. simpl exif_data.
  destruct field; simpl exif_key; simpl exif_parameter; simpl fst; simpl snd;
    destruct (String.eqb (camera_make xp) EmptyString);
    destruct (String.eqb (camera_model xp) EmptyString);
    destruct (String.eqb (date_time_original xp) EmptyString);
    destruct (String.eqb (lens_make xp) EmptyString);
    destruct (String.eqb (lens_model xp) EmptyString);
    repeat first [ rewrite exif_get_set_same
                 | rewrite exif_get_set_other by reflexivity ];
    reflexivity.
Qed.

(** X24.  An exif override sticks to the photo.  [get_exif_bytes] writes
    into the photo's own [exif_data] and returns that dictionary; a field
    of [exif_parameters] that is not empty replaces the tag.  So after a
    call with a field set, a later call with that field empty again still
    returns the earlier override, not the tag of the photo's file. *)
Theorem exif_override_sticks (xp1 xp2 : exif_parameters) (self : photo)
  (field : exif_field) :
  exif_parameter xp1 field <> EmptyString ->
  exif_parameter xp2 field = EmptyString ->
  let self1 := snd (get_exif_bytes xp1 self) in
  let self2 := snd (get_exif_bytes xp2 self1) in
  fst (get_exif_bytes xp1 self) = Ok (exif_data self1)
  /\ fst (get_exif_bytes xp2 self1) = Ok (exif_data self2)
  /\ exif_get (fst (exif_key field)) (snd (exif_key field)) (exif_data self1)
     = Some (exif_parameter xp1 field)
  /\ exif_get (fst (exif_key field)) (snd (exif_key field)) (exif_data self2)
     = Some (exif_parameter xp1 field).
Proof.
  intros Hset Hempty self1 self2.
  assert (H1 : exif_get (fst (exif_key field)) (snd (exif_key field))
                 (exif_data self1) = Some (exif_parameter xp1 field)).
  { unfold self1. rewrite get_exif_bytes_field.
    destruct (String.eqb (exif_parameter xp1 field) EmptyString) eqn:Heq;
      [|reflexivity].
    apply String.eqb_eq in Heq. contradiction. }
  split; [reflexivity|]. split; [reflexivity|]. split; [exact H1|].
  unfold self2. rewrite get_exif_bytes_field, Hempty. exact H1.
Qed.

Lemma exif_override_sticks_witness :
  let xp1 :=
    {| camera_make := "Nikon"; camera_model := EmptyString;
       lens_make := EmptyString; lens_model := EmptyString;
       date_time_original := EmptyString |} in
  let self2 :=
    snd (get_exif_bytes default_exif_parameters
           (snd (get_exif_bytes xp1 Example.fresh))) in
  exif_get "0th" "Make" (exif_data Example.fresh) = None
  /\ exif_get "0th" "Make" (exif_data self2) = Some "Nikon"%string.
Proof.
  intros xp1 self2. split; [reflexivity|].
  destruct (exif_override_sticks xp1 default_exif_parameters Example.fresh
              field_camera_make) as (_ & _ & _ & Hstill).
  - discriminate.
  - reflexivity.
  - exact Hstill.
Defined.

(** ** The frame *)







(** ** The settings file *)




(** ** The base colour *)

Lemma py_round_8_bit (x : R) :
  0 <= x <= 255 -> (0 <= py_round x <= 255)%Z.
Proof.
  intros [Hlo Hhi]. unfold py_round.
  destruct (base_Int_part x) as [Hle Hgt].
  assert (H0 : (0 <= Int_part x)%Z).
  { assert (H : IZR (-1) < IZR (Int_part x)) by (simpl; lra).
    apply lt_IZR in H. lia. }
  assert (H255 : (Int_part x <= 255)%Z).
  { apply le_IZR. lra. }
  assert (Hhalf : 1 / 2 <= x - IZR (Int_part x) -> (Int_part x + 1 <= 255)%Z).
  { intros Hd. assert (H : IZR (Int_part x) < IZR 255) by lra.
    apply lt_IZR in H. lia. }
  destruct (Rlt_dec (x - IZR (Int_part x)) (1 / 2)) as [Hd|Hd]; [lia|].
  apply Rnot_lt_le in Hd. specialize (Hhalf Hd).
  destruct (Rlt_dec (1 / 2) (x - IZR (Int_part x))); [lia|].
  destruct (Z.even (Int_part x)); lia.
Qed.

Lemma to_uint16_8_bit (v : Z) :
  (0 <= v <= 255)%Z -> to_uint16 (to_uint16 v * 256) = (v * 256)%Z.
Proof.
  intros Hv. unfold to_uint16.
  rewrite (Z.mod_small v) by lia. apply Z.mod_small. lia.
Qed.

(** X27.  The base colour keeps its channels.  [get_base_colour] stores
    the mean of the picked region as RGB, and [hist_EQ] reads it back as
    BGR, the order of the buffers: with [base_detect] set and means within
    0 to 255, the black point of a slide is 256 times the rounded mean of
    each channel, blue first, and that of a colour negative is 65535 less
    it. *)
Theorem base_colour_keeps_channels {E : Extern} (cp : class_parameters)
  (x y : R) (self self' : photo) (sample_img : image) :
  get_base_colour cp x y self = (Ok tt, self') ->
  base_detect (params self) = true ->
  exists (raw8 base_mask : image) (B G R_ A : R),
    cv2_mean raw8 base_mask = Ok (B, G, R_, A)
    /\ base_rgb (params self') = [py_round R_; py_round G; py_round B]
    /\ (0 <= B <= 255 -> 0 <= G <= 255 -> 0 <= R_ <= 255 ->
        (film_type (params self) = 2%Z ->
         black_point_of cp self' sample_img
         = [IZR (py_round B * 256); IZR (py_round G * 256);
            IZR (py_round R_ * 256)])
        /\ (film_type (params self) = 1%Z ->
            black_point_of cp self' sample_img
            = [IZR (65535 - py_round B * 256);
               IZR (65535 - py_round G * 256);
               IZR (65535 - py_round R_ * 256)])).
Proof.
  unfold get_base_colour. unfold mbind at 1, eval at 1.
  destruct (RAW_IMG_array TypeError self) as [raw|e]; [|discriminate].
  unfold mbind at 1, eval at 1. unfold mbind at 1, eval at 1.
  destruct (cv2_circle_filled _ _ _ _) as [mask|e]; [|discriminate].
  unfold rbind at 1.
  destruct (cv2_convertScaleAbs raw (255 / 65535)) as [raw8|e];
    [|discriminate].
  unfold rbind at 1.
  destruct (cv2_mean raw8 (rotate self mask true)) as [[[[B G] R_] A]|e] eqn:Hmean;
    [|discriminate].
  unfold assign. intros [= <-] Hdetect.
  exists raw8, (rotate self mask true), B, G, R_, A.
  split; [exact Hmean|].
  set (self' := set_params _ self).
  assert (Hrgb : base_rgb (params self')
                 = [py_round R_; py_round G; py_round B]).
  { unfold self'. destruct self as [[] ? ? ? ? ? ? ? ? ? ? ? ? ? ? ? ? ? ? ?].
    reflexivity. }
  assert (Hsame : base_detect (params self') = base_detect (params self)
                  /\ film_type (params self') = film_type (params self)).
  { unfold self'. destruct self as [[] ? ? ? ? ? ? ? ? ? ? ? ? ? ? ? ? ? ? ?].
    split; reflexivity. }
  destruct Hsame as [Hd Hf]. split; [exact Hrgb|].
  intros HB HG HR.
  apply py_round_8_bit in HB, HG, HR.
  unfold black_point_of. rewrite Hd, Hdetect, Hf, Hrgb.
  split; intros ->; cbn [Z.eqb Pos.eqb andb orb rev app map];
    rewrite !to_uint16_8_bit by assumption.
  - reflexivity.
  - unfold to_uint16.
    rewrite (Z.mod_small (65535 - py_round B * 256)) by lia.
    rewrite (Z.mod_small (65535 - py_round G * 256)) by lia.
    rewrite (Z.mod_small (65535 - py_round R_ * 256)) by lia.
    reflexivity.
Qed.

Lemma base_colour_keeps_channels_witness :
  let E := Sample.libraries_with_mean (10, 20, 30, 0) in
  let picked :=
    set_params
      {| dark_threshold := 0; light_threshold := 0; border_crop := 0;
         flip := false; rotation := 0; film_type := 2;
         white_point := 0; black_point := 0; gamma := 0; shadows := 0;
         highlights := 0; temp := 0; tint := 0; sat := 100;
         reject := false; base_detect := true; base_rgb := [];
         remove_dust := false |}
      Example.loaded in
  exists self',
    get_base_colour (E := E) default_parameters (1 / 2) (1 / 2) picked
    = (Ok tt, self')
    /\ base_rgb (params self') = [py_round 30; py_round 20; py_round 10].
Proof.
  intros E picked.
  exists (snd (get_base_colour (E := E) default_parameters (1 / 2) (1 / 2)
                 picked)).
  assert (Hget : get_base_colour (E := E) default_parameters (1 / 2) (1 / 2)
                   picked
                 = (Ok tt,
                    snd (get_base_colour (E := E) default_parameters
                           (1 / 2) (1 / 2) picked))).
  { reflexivity. }
  split; [exact Hget|].
  destruct (base_colour_keeps_channels (E := E) default_parameters
              (1 / 2) (1 / 2) picked _ Example.scan Hget eq_refl)
    as (raw8 & mask & B & G & R_ & A & Hmean & Hrgb & _).
  injection Hmean as <- <- <- _. exact Hrgb.
Defined.

(** ** Boxes, continued *)




